(** * The CLAP entry shim of daw-mcp (src/plugin/shim/clap_entry.c)

    A shallow embedding of the C shim that exposes one plugin through the
    CLAP function tables and forwards every lifecycle call to the embedded
    OCaml runtime.  The C heap (the two calloc'ed structs per instance),
    the five function-local static caches of named values, and the
    sequence of calls made into the OCaml runtime are explicit state; the
    OCaml runtime itself is a parameter. *)

From Stdlib Require Import ZArith String List Lia Floats.PrimFloat.
From stdpp Require Import base list strings.
Import ListNotations.
Local Open Scope Z_scope.

(** ** OCaml values as the shim sees them *)

(** [value] is a machine word in C.  The shim only ever produces
    immediates ([Val_unit], [Val_int]), boxed doubles ([caml_copy_double])
    and passes around blocks it received from the runtime, so the three
    kinds are kept apart; a pointer is never equal to an immediate. *)
Inductive value : Type :=
| Imm (w : Z)           (* a non-pointer word; tagged integers have bit 0 set *)
| Boxed_double (d : float)  (* result of caml_copy_double *)
| Block (id : Z).       (* any other block of the OCaml heap: closures, records *)

(** caml/mlvalues.h: [Val_long(x) = ((intnat)(((uintnat)(intnat)(x)) << 1)) + 1],
    with a 64-bit [intnat]. *)
Definition intnat_wrap (z : Z) : Z :=
  (z + 2 ^ 63) mod 2 ^ 64 - 2 ^ 63.

Definition Val_long (x : Z) : value := Imm (intnat_wrap (Z.shiftl x 1 + 1)).
Definition Val_int := Val_long.
Definition Val_unit : value := Val_int 0.

(** caml/mlvalues.h: [Long_val(x) = ((x) >> 1)]. *)
Definition Long_val (v : value) : option Z :=
  match v with
  | Imm w => Some (Z.shiftr w 1)
  | _ => None
  end.

Definition caml_copy_double (d : float) : value := Boxed_double d.

(** Word comparison against [Val_unit], as in [state->ocaml_plugin != Val_unit]. *)
Definition is_Val_unit (v : value) : bool :=
  match v with
  | Imm w => Z.eqb w 1
  | _ => false
  end.

(** ** string.h *)

(** [strcmp] on the characters before the terminating NUL: the sign of the
    first difference, bytes compared as unsigned char. *)
Fixpoint strcmp (a b : string) : Z :=
  match a, b with
  | EmptyString, EmptyString => 0
  | EmptyString, String _ _ => -1
  | String _ _, EmptyString => 1
  | String x a', String y b' =>
      let cx := Z.of_N (Ascii.N_of_ascii x) in
      let cy := Z.of_N (Ascii.N_of_ascii y) in
      if Z.eqb cx cy then strcmp a' b' else cx - cy
  end.

(** ** CLAP structures *)

Record clap_version := { major : Z; minor : Z; revision : Z }.

Definition CLAP_VERSION : clap_version :=
  {| major := 1; minor := 2; revision := 0 |}.

Record clap_plugin_descriptor := {
  clap_version_of : clap_version;
  id : string;
  name : string;
  vendor : string;
  url : string;
  manual_url : string;
  support_url : string;
  version : string;
  description : string;
  features : list string
}.

Definition s_descriptor : clap_plugin_descriptor := {|
  clap_version_of := CLAP_VERSION;
  id := "com.dancer.daw-bridge";
  name := "DAW Bridge";
  vendor := "Dancer";
  url := "https://github.com/dancer/me";
  manual_url := "";
  support_url := "";
  version := "1.0.0";
  description := "MCP Bridge for AI control of DAW";
  features := ["utility"; "analyzer"]
|}.

(** Pointers into the C heap: [0] is NULL, [S i] is the [i]-th allocation. *)
Definition ptr := nat.
Definition NULL : ptr := 0%nat.

(** The static functions whose addresses are stored in the tables. *)
Inductive fnptr : Type :=
| fn_null
| fn_plugin_init | fn_plugin_destroy | fn_plugin_activate
| fn_plugin_deactivate | fn_plugin_start_processing
| fn_plugin_stop_processing | fn_plugin_reset | fn_plugin_process
| fn_plugin_get_extension | fn_plugin_on_main_thread
| fn_factory_get_plugin_count | fn_factory_get_plugin_descriptor
| fn_factory_create_plugin.

Record clap_plugin := {
  desc : option clap_plugin_descriptor;   (* None is NULL *)
  plugin_data : ptr;
  init : fnptr;
  destroy : fnptr;
  activate : fnptr;
  deactivate : fnptr;
  start_processing : fnptr;
  stop_processing : fnptr;
  reset : fnptr;
  process : fnptr;
  get_extension : fnptr;
  on_main_thread : fnptr
}.

Record clap_plugin_factory := {
  get_plugin_count : fnptr;
  get_plugin_descriptor : fnptr;
  create_plugin : fnptr
}.

(** [daw_bridge_state_t]; [host] is an opaque address that is never
    dereferenced by the shim. *)
Record daw_bridge_state := {
  ocaml_plugin : value;
  host : Z
}.

(** ** The C heap *)

Inductive block : Type :=
| BPlugin (p : clap_plugin)
| BState (s : daw_bridge_state).

(** A freed cell keeps its last contents; whether they may still be read
    is decided by the memory model below. *)
Record cell := { freed : bool; content : block }.

(** C leaves the use of freed memory undefined.  [Checked] is the abstract
    machine: such a use is a fault.  [Unchecked] is what an allocator that
    leaves freed memory in place lets the instructions do. *)
Inductive memory_model : Type := Checked | Unchecked.

Inductive fault : Type :=
| NullDeref | WildPointer | UseAfterFree | DoubleFree | BadCast
| Uncaught (exn : value).   (* an OCaml exception left the shim uncaught *)

(** The five bridge entry points, one function-local static each. *)
Inductive entry : Type :=
| E_init | E_destroy | E_activate | E_deactivate | E_process.

Definition entry_name (e : entry) : string :=
  match e with
  | E_init => "daw_bridge_init"
  | E_destroy => "daw_bridge_destroy"
  | E_activate => "daw_bridge_activate"
  | E_deactivate => "daw_bridge_deactivate"
  | E_process => "daw_bridge_process"
  end.

(** The [static const value *ocaml_...] locals; [None] is NULL.  What is
    stored is the pointer [caml_named_value] returned, an address inside
    the runtime's table of named values, not the closure behind it. *)
Record statics := {
  ocaml_init : option value;
  ocaml_destroy : option value;
  ocaml_activate : option value;
  ocaml_deactivate : option value;
  ocaml_process : option value
}.

Definition statics_get (e : entry) (s : statics) : option value :=
  match e with
  | E_init => ocaml_init s
  | E_destroy => ocaml_destroy s
  | E_activate => ocaml_activate s
  | E_deactivate => ocaml_deactivate s
  | E_process => ocaml_process s
  end.

Definition statics_set (e : entry) (v : option value) (s : statics) : statics :=
  match e with
  | E_init =>
      {| ocaml_init := v; ocaml_destroy := ocaml_destroy s;
         ocaml_activate := ocaml_activate s;
         ocaml_deactivate := ocaml_deactivate s;
         ocaml_process := ocaml_process s |}
  | E_destroy =>
      {| ocaml_init := ocaml_init s; ocaml_destroy := v;
         ocaml_activate := ocaml_activate s;
         ocaml_deactivate := ocaml_deactivate s;
         ocaml_process := ocaml_process s |}
  | E_activate =>
      {| ocaml_init := ocaml_init s; ocaml_destroy := ocaml_destroy s;
         ocaml_activate := v;
         ocaml_deactivate := ocaml_deactivate s;
         ocaml_process := ocaml_process s |}
  | E_deactivate =>
      {| ocaml_init := ocaml_init s; ocaml_destroy := ocaml_destroy s;
         ocaml_activate := ocaml_activate s;
         ocaml_deactivate := v;
         ocaml_process := ocaml_process s |}
  | E_process =>
      {| ocaml_init := ocaml_init s; ocaml_destroy := ocaml_destroy s;
         ocaml_activate := ocaml_activate s;
         ocaml_deactivate := ocaml_deactivate s;
         ocaml_process := v |}
  end.

Definition no_statics : statics :=
  {| ocaml_init := None; ocaml_destroy := None; ocaml_activate := None;
     ocaml_deactivate := None; ocaml_process := None |}.

(** What the shim does to the world outside its own memory. *)
Inductive event : Type :=
| EvCallback (e : entry) (closure : value) (args : list value)
| EvRegisterRoot (slot : ptr)     (* caml_register_global_root(&state->ocaml_plugin) *)
| EvRemoveRoot (slot : ptr)       (* caml_remove_global_root(&state->ocaml_plugin) *)
| EvCalloc (a : ptr)
| EvFree (a : ptr)
| EvStartup.                      (* caml_startup *)

Record world := {
  heap : list cell;
  cache : statics;
  trace : list event        (* oldest first *)
}.

Definition empty_world : world :=
  {| heap := []; cache := no_statics; trace := [] |}.

(** What applying a closure ends in ([caml_callback_exn]): a result, or an
    exception the closure raised. *)
Inductive callback_result : Type :=
| Returned (v : value)
| Raised (exn : value).

(** The embedded runtime as the shim meets it.  [named_value] is
    [caml_named_value]: the address of the slot registered under a name,
    or NULL.  [slot_content] reads through such an address; registering a
    name again overwrites the slot in place, so the same address may hold
    another closure later.  [callback_exn] applies a closure.  Slot
    addresses are words of the runtime's memory and are written as
    [value]s like every other word the runtime hands out. *)
Record ocaml_runtime := {
  named_value : string -> option value;
  slot_content : value -> value;
  callback_exn : value -> list value -> callback_result
}.

(** A runtime at rest: every name is registered once, so a slot is known
    by the closure it holds, and no closure raises.  [caml_named_value]
    gives the closure registered under a name, [caml_apply] what it
    returns. *)
Record runtime := {
  caml_named_value : string -> option value;
  caml_apply : value -> list value -> value
}.

Definition at_rest (rt : runtime) : ocaml_runtime := {|
  named_value := caml_named_value rt;
  slot_content := fun slot => slot;
  callback_exn := fun f args => Returned (caml_apply rt f args)
|}.

Coercion at_rest : runtime >-> ocaml_runtime.

(** ** Computations over the world *)

Inductive outcome (A : Type) : Type :=
| Ok (a : A) (w : world)
| Fault (f : fault).
Arguments Ok {A} a w.
Arguments Fault {A} f.

Definition M (A : Type) : Type := world -> outcome A.

Definition ret {A} (a : A) : M A := fun w => Ok a w.

Definition bind {A B} (c : M A) (k : A -> M B) : M B :=
  fun w => match c w with
           | Ok a w' => k a w'
           | Fault f => Fault f
           end.

Definition fail {A} (f : fault) : M A := fun _ => Fault f.

Declare Scope shim_scope.
Delimit Scope shim_scope with shim.
Notation "x <- c ;; k" := (bind c (fun x => k))
  (at level 100, c at next level, right associativity) : shim_scope.
Notation "c ;;; k" := (bind c (fun _ => k))
  (at level 100, right associativity) : shim_scope.
Local Open Scope shim_scope.

Definition emit (e : event) : M unit :=
  fun w => Ok tt {| heap := heap w; cache := cache w; trace := trace w ++ [e] |}.

Definition cell_at (h : list cell) (a : ptr) : option cell :=
  match a with
  | O => None
  | S i => h !! i
  end.

Section Shim.

Variable rt : ocaml_runtime.
Variable mm : memory_model.

(** Reading through a pointer. *)
Definition deref (a : ptr) : M block :=
  fun w =>
    match a with
    | O => Fault NullDeref
    | S i =>
        match heap w !! i with
        | None => Fault WildPointer
        | Some c =>
            if freed c then
              match mm with
              | Checked => Fault UseAfterFree
              | Unchecked => Ok (content c) w
              end
            else Ok (content c) w
        end
    end.

(** Writing through a pointer. *)
Definition assign (a : ptr) (b : block) : M unit :=
  fun w =>
    match a with
    | O => Fault NullDeref
    | S i =>
        match heap w !! i with
        | None => Fault WildPointer
        | Some c =>
            let w' := {| heap := <[i := {| freed := freed c; content := b |}]> (heap w);
                         cache := cache w; trace := trace w |} in
            if freed c then
              match mm with
              | Checked => Fault UseAfterFree
              | Unchecked => Ok tt w'
              end
            else Ok tt w'
        end
    end.

(** [calloc(1, sizeof ...)]: a fresh cell holding the zeroed struct.  As in
    the source, the result is not tested; allocation is taken to succeed. *)
Definition calloc (zero : block) : M ptr :=
  fun w =>
    let a := S (length (heap w)) in
    Ok a {| heap := heap w ++ [{| freed := false; content := zero |}];
            cache := cache w;
            trace := trace w ++ [EvCalloc a] |}.

(** [free]: nothing for NULL; releasing a cell twice is a fault of the
    abstract machine. *)
Definition free (a : ptr) : M unit :=
  fun w =>
    match a with
    | O => Ok tt w
    | S i =>
        match heap w !! i with
        | None => Fault WildPointer
        | Some c =>
            let w' := {| heap := <[i := {| freed := true; content := content c |}]> (heap w);
                         cache := cache w;
                         trace := trace w ++ [EvFree a] |} in
            if freed c then
              match mm with
              | Checked => Fault DoubleFree
              | Unchecked => Ok tt w'
              end
            else Ok tt w'
        end
    end.

Definition load_plugin (a : ptr) : M clap_plugin :=
  b <- deref a ;;
  match b with
  | BPlugin p => ret p
  | BState _ => fail BadCast
  end.

Definition load_state (a : ptr) : M daw_bridge_state :=
  b <- deref a ;;
  match b with
  | BState s => ret s
  | BPlugin _ => fail BadCast
  end.

(** [state->ocaml_plugin = v] *)
Definition set_ocaml_plugin (state : ptr) (v : value) : M unit :=
  s <- load_state state ;;
  assign state (BState {| ocaml_plugin := v; host := host s |}).

(** ** The runtime bridge *)

(** The pattern that opens every bridging function:
    [if (ocaml_x == NULL) ocaml_x = caml_named_value("daw_bridge_x");]
    and the value of [ocaml_x] afterwards. *)
Definition named_value_cached (e : entry) : M (option value) :=
  fun w =>
    match statics_get e (cache w) with
    | Some f => Ok (Some f) w
    | None =>
        let r := named_value rt (entry_name e) in
        Ok r {| heap := heap w; cache := statics_set e r (cache w); trace := trace w |}
    end.

(** [caml_callback] / [caml_callbackN]: the closure runs on the arguments
    and its result comes back.  Unlike [caml_callback_exn] they do not
    catch: an exception the closure raises goes past the C frames, and as
    the host called in from outside OCaml nothing is left to handle it. *)
Definition caml_callback (e : entry) (closure : value) (args : list value) : M value :=
  emit (EvCallback e closure args) ;;;
  match callback_exn rt closure args with
  | Returned v => ret v
  | Raised exn => fail (Uncaught exn)
  end.

Definition caml_register_global_root (slot : ptr) : M unit := emit (EvRegisterRoot slot).
Definition caml_remove_global_root (slot : ptr) : M unit := emit (EvRemoveRoot slot).

(** ** Plugin implementation *)

Definition plugin_init (plugin : ptr) : M bool :=
  p <- load_plugin plugin ;;
  let state := plugin_data p in
  f <- named_value_cached E_init ;;
  match f with
  | Some ocaml_init =>
      r <- caml_callback E_init (slot_content rt ocaml_init) [Val_unit] ;;
      set_ocaml_plugin state r ;;;
      caml_register_global_root state ;;;
      ret true
  | None => ret false
  end.

Definition plugin_destroy (plugin : ptr) : M unit :=
  p <- load_plugin plugin ;;
  let state := plugin_data p in
  f <- named_value_cached E_destroy ;;
  match f with
  | Some ocaml_destroy =>
      s <- load_state state ;;
      if is_Val_unit (ocaml_plugin s) then ret tt
      else
        caml_callback E_destroy (slot_content rt ocaml_destroy) [ocaml_plugin s] ;;;
        caml_remove_global_root state
  | None => ret tt
  end ;;;
  free state ;;;
  free plugin.

Definition plugin_activate (plugin : ptr) (sample_rate : float)
    (min_frames max_frames : Z) : M bool :=
  p <- load_plugin plugin ;;
  let state := plugin_data p in
  f <- named_value_cached E_activate ;;
  match f with
  | Some ocaml_activate =>
      s <- load_state state ;;
      let args := [ocaml_plugin s; caml_copy_double sample_rate; Val_int max_frames] in
      caml_callback E_activate (slot_content rt ocaml_activate) args ;;;
      ret true
  | None => ret false
  end.

Definition plugin_deactivate (plugin : ptr) : M unit :=
  p <- load_plugin plugin ;;
  let state := plugin_data p in
  f <- named_value_cached E_deactivate ;;
  match f with
  | Some ocaml_deactivate =>
      s <- load_state state ;;
      caml_callback E_deactivate (slot_content rt ocaml_deactivate) [ocaml_plugin s] ;;;
      ret tt
  | None => ret tt
  end.

Definition plugin_start_processing (plugin : ptr) : M bool := ret true.

Definition plugin_stop_processing (plugin : ptr) : M unit := ret tt.

Definition plugin_reset (plugin : ptr) : M unit := ret tt.

Definition plugin_process (plugin : ptr) (process_arg : ptr) : M Z :=
  p <- load_plugin plugin ;;
  let state := plugin_data p in
  f <- named_value_cached E_process ;;
  match f with
  | Some ocaml_process =>
      s <- load_state state ;;
      caml_callback E_process (slot_content rt ocaml_process) [ocaml_plugin s] ;;;
      ret tt
  | None => ret tt
  end ;;;
  ret 0.

Definition plugin_get_extension (plugin : ptr) (ext_id : string) : M ptr := ret NULL.

Definition plugin_on_main_thread (plugin : ptr) : M unit := ret tt.

(** ** Factory *)

Definition factory_get_plugin_count : Z := 1.

Definition factory_get_plugin_descriptor (index : Z) : option clap_plugin_descriptor :=
  if Z.eqb index 0 then Some s_descriptor else None.

Definition zero_plugin : clap_plugin := {|
  desc := None; plugin_data := NULL;
  init := fn_null; destroy := fn_null; activate := fn_null;
  deactivate := fn_null; start_processing := fn_null;
  stop_processing := fn_null; reset := fn_null; process := fn_null;
  get_extension := fn_null; on_main_thread := fn_null |}.

Definition zero_state : daw_bridge_state :=
  {| ocaml_plugin := Imm 0; host := 0 |}.

(** The struct [factory_create_plugin] has written once its twelve field
    assignments are done. *)
Definition new_plugin (state : ptr) : clap_plugin := {|
  desc := Some s_descriptor; plugin_data := state;
  init := fn_plugin_init; destroy := fn_plugin_destroy;
  activate := fn_plugin_activate; deactivate := fn_plugin_deactivate;
  start_processing := fn_plugin_start_processing;
  stop_processing := fn_plugin_stop_processing;
  reset := fn_plugin_reset; process := fn_plugin_process;
  get_extension := fn_plugin_get_extension;
  on_main_thread := fn_plugin_on_main_thread |}.

Definition factory_create_plugin (host_ref : Z) (plugin_id : string) : M ptr :=
  if negb (Z.eqb (strcmp plugin_id (id s_descriptor)) 0) then ret NULL
  else
    plugin <- calloc (BPlugin zero_plugin) ;;
    state <- calloc (BState zero_state) ;;
    assign state (BState {| ocaml_plugin := Val_unit; host := host_ref |}) ;;;
    assign plugin (BPlugin (new_plugin state)) ;;;
    ret plugin.

Definition s_factory : clap_plugin_factory := {|
  get_plugin_count := fn_factory_get_plugin_count;
  get_plugin_descriptor := fn_factory_get_plugin_descriptor;
  create_plugin := fn_factory_create_plugin |}.

(** ** Entry point *)

Definition entry_init (plugin_path : string) : M bool :=
  emit EvStartup ;;;
  ret true.

Definition entry_deinit : M unit := ret tt.

Definition entry_get_factory (factory_id : string) : option clap_plugin_factory :=
  if Z.eqb (strcmp factory_id "clap.plugin-factory") 0 then Some s_factory else None.

(** ** The host driving one instance *)

Inductive host_call : Type :=
| CInit
| CActivate (sample_rate : float) (min_frames max_frames : Z)
| CDeactivate
| CStartProcessing
| CStopProcessing
| CReset
| CProcess (process_arg : ptr)
| COnMainThread
| CDestroy.

Definition step (plugin : ptr) (c : host_call) : M unit :=
  match c with
  | CInit => plugin_init plugin ;;; ret tt
  | CActivate sr mn mx => plugin_activate plugin sr mn mx ;;; ret tt
  | CDeactivate => plugin_deactivate plugin
  | CStartProcessing => plugin_start_processing plugin ;;; ret tt
  | CStopProcessing => plugin_stop_processing plugin
  | CReset => plugin_reset plugin
  | CProcess a => plugin_process plugin a ;;; ret tt
  | COnMainThread => plugin_on_main_thread plugin
  | CDestroy => plugin_destroy plugin
  end.

Fixpoint run (plugin : ptr) (cs : list host_call) : M unit :=
  match cs with
  | [] => ret tt
  | c :: cs' => step plugin c ;;; run plugin cs'
  end.

End Shim.

Arguments plugin_start_processing plugin /.
Arguments plugin_stop_processing plugin /.
Arguments plugin_reset plugin /.
Arguments plugin_get_extension plugin ext_id /.
Arguments plugin_on_main_thread plugin /.

(** ** Vocabulary for the statements *)

(** The block a pointer designates, when it designates one that has been
    allocated and not freed. *)
Definition live_at (h : list cell) (a : ptr) : option block :=
  match cell_at h a with
  | Some c => if freed c then None else Some (content c)
  | None => None
  end.

(** [plugin] is an instance the host may still use: its struct [p] and the
    state [s] its [plugin_data] points to are both allocated and not freed. *)
Definition instance_at (w : world) (plugin : ptr)
    (p : clap_plugin) (s : daw_bridge_state) : Prop :=
  live_at (heap w) plugin = Some (BPlugin p) /\
  live_at (heap w) (plugin_data p) = Some (BState s).

(** What the static of entry [e] holds once the lookup pattern has run:
    the cached pointer if there is one, otherwise what the runtime has
    registered under the name.  [None] means the entry point is unresolved. *)
Definition resolved (rt : ocaml_runtime) (e : entry) (w : world) : option value :=
  match statics_get e (cache w) with
  | Some f => Some f
  | None => named_value rt (entry_name e)
  end.

Definition with_cache (w : world) (c : statics) : world :=
  {| heap := heap w; cache := c; trace := trace w |}.

(** The world after the lookup pattern for [e]. *)
Definition looked_up (rt : ocaml_runtime) (e : entry) (w : world) : world :=
  match statics_get e (cache w) with
  | Some _ => w
  | None => with_cache w (statics_set e (named_value rt (entry_name e)) (cache w))
  end.

Definition is_callback (ev : event) : bool :=
  match ev with
  | EvCallback _ _ _ => true
  | _ => false
  end.

(** The calls into the runtime recorded in a trace. *)
Definition callbacks (t : list event) : list event := List.filter is_callback t.

Definition root_delta (slot : ptr) (ev : event) : Z :=
  match ev with
  | EvRegisterRoot a => if Nat.eqb a slot then 1 else 0
  | EvRemoveRoot a => if Nat.eqb a slot then -1 else 0
  | _ => 0
  end.

(** Registrations minus removals of [slot] as a global root in [t]. *)
Definition pinned (slot : ptr) (t : list event) : Z :=
  fold_right (fun ev n => root_delta slot ev + n) 0 t.

Definition free_count (a : ptr) (t : list event) : nat :=
  length (List.filter (fun ev => match ev with EvFree b => Nat.eqb a b | _ => false end) t).

Definition live_cell (b : block) : cell := {| freed := false; content := b |}.
Definition freed_cell (b : block) : cell := {| freed := true; content := b |}.


(** The world [factory_create_plugin] leaves for the matching identity. *)
Definition created_from (w : world) (host_ref : Z) : world :=
  let plugin := S (length (heap w)) in
  let state := S plugin in
  {| heap := heap w ++
             [ live_cell (BPlugin (new_plugin state));
               live_cell (BState {| ocaml_plugin := Val_unit; host := host_ref |}) ];
     cache := cache w;
     trace := trace w ++ [EvCalloc plugin; EvCalloc state] |}.

(** The world [plugin_init] leaves when [daw_bridge_init] resolved to [f]. *)
Definition initialised (rt : runtime) (w : world) (p : clap_plugin) (s : daw_bridge_state)
    (f : value) : world :=
  let w1 := looked_up rt E_init w in
  {| heap := <[pred (plugin_data p) :=
                 live_cell (BState {| ocaml_plugin := caml_apply rt f [Val_unit];
                                      host := host s |})]> (heap w1);
     cache := cache w1;
     trace := trace w1 ++ [EvCallback E_init f [Val_unit];
                           EvRegisterRoot (plugin_data p)] |}.

(** The world a bridging function leaves when it has called the closure [f]
    that entry [e] resolved to. *)
Definition called (rt : ocaml_runtime) (e : entry) (w : world) (f : value) (args : list value) : world :=
  let w1 := looked_up rt e w in
  {| heap := heap w1; cache := cache w1;
     trace := trace w1 ++ [EvCallback e f args] |}.

(** What [plugin_destroy] tells the runtime: the destroy call and the root
    removal, made only when [daw_bridge_destroy] is resolved and the handle
    is not [Val_unit]. *)
Definition release_events (rt : runtime) (w : world)
    (p : clap_plugin) (s : daw_bridge_state) : list event :=
  match resolved rt E_destroy w with
  | Some f =>
      if is_Val_unit (ocaml_plugin s) then []
      else [EvCallback E_destroy f [ocaml_plugin s]; EvRemoveRoot (plugin_data p)]
  | None => []
  end.

Definition destroyed (rt : runtime) (w : world) (plugin : ptr)
    (p : clap_plugin) (s : daw_bridge_state) : world :=
  let w1 := looked_up rt E_destroy w in
  {| heap := <[pred plugin := freed_cell (BPlugin p)]>
               (<[pred (plugin_data p) := freed_cell (BState s)]> (heap w1));
     cache := cache w1;
     trace := trace w1 ++ release_events rt w p s ++
              [EvFree (plugin_data p); EvFree plugin] |}.


(** ** Concrete runtimes and scenarios *)

(** A runtime with all five entry points registered; [daw_bridge_init]
    returns the block 100 as the plugin handle. *)
Definition full_runtime : runtime := {|
  caml_named_value := fun n =>
    if String.eqb n "daw_bridge_init" then Some (Block 1)
    else if String.eqb n "daw_bridge_destroy" then Some (Block 2)
    else if String.eqb n "daw_bridge_activate" then Some (Block 3)
    else if String.eqb n "daw_bridge_deactivate" then Some (Block 4)
    else if String.eqb n "daw_bridge_process" then Some (Block 5)
    else None;
  caml_apply := fun f _ =>
    match f with
    | Block 1 => Block 100
    | _ => Val_unit
    end
|}.

(** A runtime in which nothing has been registered. *)
Definition bare_runtime : runtime := {|
  caml_named_value := fun _ => None;
  caml_apply := fun _ _ => Val_unit
|}.

(** The world just after [create_plugin(host 7, "com.dancer.daw-bridge")]
    on an empty heap: the plugin struct is allocation 1, its state 2. *)
Definition created_world : world := {|
  heap := [ {| freed := false; content := BPlugin (new_plugin 2%nat) |};
            {| freed := false;
               content := BState {| ocaml_plugin := Val_unit; host := 7 |} |} ];
  cache := no_statics;
  trace := [EvCalloc 1%nat; EvCalloc 2%nat]
|}.

Definition created_state : daw_bridge_state :=
  {| ocaml_plugin := Val_unit; host := 7 |}.

(** The world after [create_plugin] and a successful [init] under
    [full_runtime]: the handle is the block 100 and its slot is a root. *)
Definition initialised_world : world := {|
  heap := [ live_cell (BPlugin (new_plugin 2%nat));
            live_cell (BState {| ocaml_plugin := Block 100; host := 7 |}) ];
  cache := statics_set E_init (Some (Block 1)) no_statics;
  trace := [EvCalloc 1%nat; EvCalloc 2%nat;
            EvCallback E_init (Block 1) [Val_unit]; EvRegisterRoot 2%nat]
|}.

Definition initialised_state : daw_bridge_state :=
  {| ocaml_plugin := Block 100; host := 7 |}.


(** Idempotence of destroy as a property of the code: after one destroy
    of a live instance, a second destroy of the same pointer returns
    normally and has told neither the runtime nor the allocator anything. *)
Definition destroy_is_idempotent : Prop :=
  forall (rt : runtime) (mm : memory_model) (w : world) (plugin : ptr)
         (p : clap_plugin) (s : daw_bridge_state) (w1 : world),
    instance_at w plugin p s ->
    plugin_destroy rt mm plugin w = Ok tt w1 ->
    exists w2, plugin_destroy rt mm plugin w1 = Ok tt w2 /\ trace w2 = trace w1.



(** ** Vocabulary for whole call sequences *)



(** The calls of a sequence other than destroy. *)
Definition no_destroy (cs : list host_call) : Prop :=
  Forall (fun c => c <> CDestroy) cs.



Definition is_init (c : host_call) : bool :=
  match c with
  | CInit => true
  | _ => false
  end.

(** How many of the calls are init. *)
Definition inits (cs : list host_call) : nat := length (List.filter is_init cs).

(** ** Runtimes that are not at rest *)

(** As [full_runtime], except that the closure registered as
    [daw_bridge_process] raises the exception block 9 when applied. *)
Definition raising_runtime : ocaml_runtime := {|
  named_value := caml_named_value full_runtime;
  slot_content := fun slot => slot;
  callback_exn := fun f args =>
    match f with
    | Block 5 => Raised (Block 9)
    | _ => Returned (caml_apply full_runtime f args)
    end
|}.

(** As [full_runtime] after the OCaml side has registered another closure,
    the block 55, under the name [daw_bridge_process]: the slot is where
    it was and now holds the new closure. *)
Definition reregistered_runtime : ocaml_runtime := {|
  named_value := caml_named_value full_runtime;
  slot_content := fun slot =>
    match slot with
    | Block 5 => Block 55
    | _ => slot
    end;
  callback_exn := fun f args => Returned (caml_apply full_runtime f args)
|}.

(** "Process always reports continue" as a property of the code: on a
    live instance, under any runtime, [plugin_process] returns 0. *)
Definition process_always_continues : Prop :=
  forall (rt : ocaml_runtime) (mm : memory_model) (w : world) (plugin : ptr)
         (p : clap_plugin) (s : daw_bridge_state) (process_arg : ptr),
    instance_at w plugin p s ->
    exists w', plugin_process rt mm plugin process_arg w = Ok 0 w'.

(** Two runtimes that differ at most in the values their closures return:
    same names, same slots, and a closure raises in one exactly when it
    raises the same exception in the other. *)
Definition same_but_results (rt rt' : ocaml_runtime) : Prop :=
  (forall n, named_value rt' n = named_value rt n) /\
  (forall slot, slot_content rt' slot = slot_content rt slot) /\
  (forall f args,
     match callback_exn rt f args, callback_exn rt' f args with
     | Returned _, Returned _ => True
     | Raised x, Raised y => x = y
     | _, _ => False
     end).

(** The runtime keeps its global roots keyed by address: registering an
    address that is already a root adds nothing, and one removal clears
    it.  Whether [slot] is a root after one more event. *)
Definition root_step (slot : ptr) (is_root : bool) (ev : event) : bool :=
  match ev with
  | EvRegisterRoot a => if Nat.eqb a slot then true else is_root
  | EvRemoveRoot a => if Nat.eqb a slot then false else is_root
  | _ => is_root
  end.

(** Whether [slot] is a global root after the events of [t], none being
    one before. *)
Definition is_root_after (slot : ptr) (t : list event) : bool :=
  fold_left (root_step slot) t false.

(** ** Basic facts *)

Lemma strcmp_refl (a : string) : strcmp a a = 0.
Proof.
  induction a as [|x a IH]; simpl; [reflexivity|].
  rewrite Z.eqb_refl. exact IH.
Qed.

Lemma strcmp_zero (a b : string) : strcmp a b = 0 <-> a = b.
Proof.
  split; [|intros ->; apply strcmp_refl].
  revert b. induction a as [|x a IH]; intros [|y b]; simpl; try discriminate.
  - reflexivity.
  - destruct (Z.eqb_spec (Z.of_N (Ascii.N_of_ascii x)) (Z.of_N (Ascii.N_of_ascii y))) as [E|E].
    + intros H. apply IH in H. subst b.
      apply N2Z.inj in E.
      assert (Ex : x = y).
      { rewrite <- (Ascii.ascii_N_embedding x), <- (Ascii.ascii_N_embedding y).
        now rewrite E. }
      now subst y.
    + intros H. exfalso. apply E. lia.
Qed.

Lemma strcmp_eqb (a b : string) : Z.eqb (strcmp a b) 0 = bool_decide (a = b).
Proof.
  destruct (Z.eqb_spec (strcmp a b) 0) as [E|E].
  - apply strcmp_zero in E. now rewrite bool_decide_eq_true_2.
  - rewrite bool_decide_eq_false_2; [reflexivity|].
    intros ->. apply E, strcmp_refl.
Qed.

Lemma bind_Ok {A B} (c : M A) (k : A -> M B) w a w' :
  c w = Ok a w' -> bind c k w = k a w'.
Proof. unfold bind. now intros ->. Qed.

Lemma bind_Fault {A B} (c : M A) (k : A -> M B) w f :
  c w = Fault f -> bind c k w = Fault f.
Proof. unfold bind. now intros ->. Qed.

Lemma with_cache_same (w : world) : with_cache w (cache w) = w.
Proof. now destruct w. Qed.

Lemma statics_set_same (e : entry) (s : statics) :
  statics_set e (statics_get e s) s = s.
Proof. now destruct e, s. Qed.

Lemma statics_get_set (e : entry) (v : option value) (s : statics) :
  statics_get e (statics_set e v s) = v.
Proof. now destruct e. Qed.

Section Facts.

Variable rt : ocaml_runtime.
Variable mm : memory_model.

Lemma deref_live w a b :
  live_at (heap w) a = Some b -> deref mm a w = Ok b w.
Proof.
  unfold live_at, deref, cell_at. destruct a as [|i]; [discriminate|].
  destruct (heap w !! i) as [c|]; [|discriminate].
  destruct (freed c); [discriminate|]. now intros [= ->].
Qed.

Lemma load_plugin_live w a p :
  live_at (heap w) a = Some (BPlugin p) -> load_plugin mm a w = Ok p w.
Proof.
  intros H. unfold load_plugin. now rewrite (bind_Ok _ _ _ _ _ (deref_live _ _ _ H)).
Qed.

Lemma load_state_live w a s :
  live_at (heap w) a = Some (BState s) -> load_state mm a w = Ok s w.
Proof.
  intros H. unfold load_state. now rewrite (bind_Ok _ _ _ _ _ (deref_live _ _ _ H)).
Qed.

Lemma named_value_cached_eq e w :
  named_value_cached rt e w = Ok (resolved rt e w) (looked_up rt e w).
Proof.
  unfold named_value_cached, resolved, looked_up.
  now destruct (statics_get e (cache w)).
Qed.

Lemma looked_up_heap e w : heap (looked_up rt e w) = heap w.
Proof. unfold looked_up. now destruct (statics_get e (cache w)). Qed.

Lemma looked_up_trace e w : trace (looked_up rt e w) = trace w.
Proof. unfold looked_up. now destruct (statics_get e (cache w)). Qed.

(** An unresolved entry point leaves its static NULL: nothing changes. *)
Lemma looked_up_unresolved e w :
  resolved rt e w = None -> looked_up rt e w = w.
Proof.
  unfold resolved, looked_up.
  destruct (statics_get e (cache w)) eqn:E; [discriminate|].
  intros ->. rewrite <- E, statics_set_same. apply with_cache_same.
Qed.

(** Once resolved, the static keeps the pointer. *)
Lemma looked_up_resolved e w :
  resolved rt e (looked_up rt e w) = resolved rt e w.
Proof.
  unfold resolved, looked_up.
  destruct (statics_get e (cache w)) eqn:E; [now rewrite E|].
  simpl. rewrite statics_get_set.
  now destruct (named_value rt (entry_name e)).
Qed.

End Facts.

(** ** Memory lemmas *)

Lemma live_at_cell h a b :
  live_at h a = Some b -> exists i, a = S i /\ h !! i = Some (live_cell b).
Proof.
  unfold live_at, cell_at. destruct a as [|i]; [discriminate|].
  destruct (h !! i) as [[[] c]|] eqn:E; try discriminate.
  simpl. intros [= ->]. now exists i.
Qed.

Lemma live_at_insert_eq h i c b :
  h !! i = Some c -> live_at (<[i := live_cell b]> h) (S i) = Some b.
Proof.
  intros H. unfold live_at, cell_at.
  rewrite list_lookup_insert_eq; [reflexivity|].
  now apply lookup_lt_Some in H.
Qed.

Lemma live_at_insert_ne h i c a :
  a <> S i -> live_at (<[i := c]> h) a = live_at h a.
Proof.
  intros H. unfold live_at, cell_at. destruct a as [|j]; [reflexivity|].
  rewrite list_lookup_insert_ne; [reflexivity|]. intros ->. now apply H.
Qed.

(** The two structs of an instance sit at different addresses. *)
Lemma instance_at_distinct w plugin p s :
  instance_at w plugin p s -> plugin <> plugin_data p.
Proof.
  intros [Hp Hs] E. rewrite <- E in Hs. rewrite Hp in Hs. discriminate.
Qed.

Section MemoryFacts.

Variable mm : memory_model.

Lemma assign_live w a b0 b :
  live_at (heap w) a = Some b0 ->
  assign mm a b w =
    Ok tt {| heap := <[pred a := live_cell b]> (heap w);
             cache := cache w; trace := trace w |}.
Proof.
  intros H. apply live_at_cell in H as (i & -> & Hi).
  unfold assign. now rewrite Hi.
Qed.

Lemma free_live w a b :
  live_at (heap w) a = Some b ->
  free mm a w =
    Ok tt {| heap := <[pred a := freed_cell b]> (heap w);
             cache := cache w; trace := trace w ++ [EvFree a] |}.
Proof.
  intros H. apply live_at_cell in H as (i & -> & Hi).
  unfold free. now rewrite Hi.
Qed.

(** In the abstract machine a freed struct can no longer be read. *)
Lemma load_plugin_freed w a b :
  cell_at (heap w) a = Some (freed_cell b) ->
  load_plugin Checked a w = Fault UseAfterFree.
Proof.
  unfold cell_at, load_plugin, deref, bind. destruct a as [|i]; [discriminate|].
  now intros ->.
Qed.

End MemoryFacts.

Ltac step_with H := rewrite (bind_Ok _ _ _ _ _ H).

(** ** Factory and entry point *)

(** C8: the factory reports one plugin; index 0 gives the configured
    descriptor, whose identity is "com.dancer.daw-bridge"; every other
    index gives NULL. *)
Theorem C8_factory_registry (index : Z) :
  factory_get_plugin_count = 1 /\
  factory_get_plugin_descriptor 0 = Some s_descriptor /\
  id s_descriptor = "com.dancer.daw-bridge" /\
  factory_get_plugin_descriptor index =
    (if decide (index = 0) then Some s_descriptor else None).
Proof.
  repeat split. unfold factory_get_plugin_descriptor.
  destruct (Z.eqb_spec index 0); case_decide; congruence.
Qed.

(** C9: [entry_get_factory] answers with the plugin factory for
    "clap.plugin-factory" and with NULL for every other identifier. *)
Theorem C9_get_factory_one_identifier (factory_id : string) :
  entry_get_factory factory_id =
    (if decide (factory_id = "clap.plugin-factory") then Some s_factory else None) /\
  (entry_get_factory factory_id = Some s_factory <-> factory_id = "clap.plugin-factory") /\
  (entry_get_factory factory_id = None <-> factory_id <> "clap.plugin-factory").
Proof.
  unfold entry_get_factory. rewrite strcmp_eqb.
  case_decide as E; rewrite ?bool_decide_eq_true_2, ?bool_decide_eq_false_2 by assumption;
    repeat split; try congruence; try discriminate.
Qed.

(** C10: [get_extension] returns NULL for every instance and identifier;
    [reset] and [on_main_thread] return with the world exactly as it was,
    so in particular without a call into the runtime.  None of the three
    reads through the instance pointer. *)
Theorem C10_extension_reset_main_thread_inert
    (w : world) (plugin : ptr) (ext_id : string) :
  plugin_get_extension plugin ext_id w = Ok NULL w /\
  plugin_reset plugin w = Ok tt w /\
  plugin_on_main_thread plugin w = Ok tt w.
Proof. repeat split. Qed.

Lemma lookup_snoc_here {A} (h : list A) (x : A) : (h ++ [x]) !! length h = Some x.
Proof. rewrite lookup_app_r by lia. now rewrite Nat.sub_diag. Qed.

Lemma insert_snoc_here {A} (h : list A) (x y : A) :
  <[length h := y]> (h ++ [x]) = h ++ [y].
Proof. rewrite insert_app_r_alt by lia. now rewrite Nat.sub_diag. Qed.

Lemma factory_create_plugin_eq mm w host_ref plugin_id :
  factory_create_plugin mm host_ref plugin_id w =
    if decide (plugin_id = id s_descriptor)
    then Ok (S (length (heap w))) (created_from w host_ref)
    else Ok NULL w.
Proof.
  unfold factory_create_plugin. rewrite strcmp_eqb.
  case_decide as E.
  - rewrite bool_decide_eq_true_2 by assumption.
    change (negb true) with false. cbv iota.
    destruct w as [h c t]. unfold bind, calloc, created_from. simpl.
    rewrite lookup_snoc_here. simpl. rewrite insert_snoc_here.
    rewrite <- app_assoc. simpl.
    rewrite lookup_app_r by lia. rewrite Nat.sub_diag. simpl.
    rewrite insert_app_r_alt by lia. rewrite Nat.sub_diag. simpl.
    rewrite length_app. simpl. rewrite <- app_assoc. simpl.
    replace (length h + 1)%nat with (S (length h)) by lia.
    reflexivity.
  - now rewrite bool_decide_eq_false_2 by assumption.
Qed.

Lemma created_from_instance w host_ref :
  instance_at (created_from w host_ref) (S (length (heap w)))
    (new_plugin (S (S (length (heap w)))))
    {| ocaml_plugin := Val_unit; host := host_ref |}.
Proof.
  unfold instance_at, live_at, cell_at, created_from. simpl.
  rewrite lookup_app_r by lia. rewrite Nat.sub_diag. simpl.
  rewrite lookup_app_r by lia.
  replace (S (length (heap w)) - length (heap w))%nat with 1%nat by lia.
  now split.
Qed.

(** C5: for an identity other than the descriptor's, [create_plugin]
    returns NULL and leaves heap, statics and trace as they were; for the
    descriptor's identity it returns a fresh non-NULL pointer to a live
    plugin struct with the full function table, whose state holds
    [Val_unit] as handle and the given host pointer, and no call into
    the runtime has been made. *)
Theorem C5_create_plugin (mm : memory_model) (w : world)
    (host_ref : Z) (plugin_id : string) :
  let plugin := S (length (heap w)) in
  let state := S plugin in
  factory_create_plugin mm host_ref plugin_id w =
    (if decide (plugin_id = id s_descriptor)
     then Ok plugin (created_from w host_ref)
     else Ok NULL w) /\
  plugin <> NULL /\
  cell_at (heap w) plugin = None /\
  cell_at (heap w) state = None /\
  instance_at (created_from w host_ref) plugin (new_plugin state)
    {| ocaml_plugin := Val_unit; host := host_ref |} /\
  is_Val_unit Val_unit = true /\
  callbacks (trace (created_from w host_ref)) = callbacks (trace w) /\
  pinned state (trace (created_from w host_ref)) = pinned state (trace w).
Proof.
  intros plugin state. split; [apply factory_create_plugin_eq|].
  split; [discriminate|].
  split; [apply lookup_ge_None_2; lia|].
  split; [apply lookup_ge_None_2; unfold plugin; lia|].
  split; [apply created_from_instance|].
  split; [reflexivity|].
  unfold created_from, callbacks, pinned. simpl trace.
  rewrite List.filter_app. simpl. rewrite app_nil_r. split; [reflexivity|].
  rewrite fold_right_app. reflexivity.
Qed.

(** ** Lifecycle calls on a live instance *)

Section Lifecycle.

Variable rt : runtime.
Variable mm : memory_model.

Lemma instance_at_looked_up e w plugin p s :
  instance_at w plugin p s -> instance_at (looked_up rt e w) plugin p s.
Proof. unfold instance_at. now rewrite looked_up_heap. Qed.

Lemma plugin_init_unresolved w plugin p s :
  instance_at w plugin p s ->
  resolved rt E_init w = None ->
  plugin_init rt mm plugin w = Ok false w.
Proof.
  intros [Hp _] Hr. unfold plugin_init.
  step_with (load_plugin_live mm w plugin p Hp).
  step_with (named_value_cached_eq rt E_init w).
  rewrite Hr, (looked_up_unresolved _ _ _ Hr). reflexivity.
Qed.

Lemma plugin_init_resolved w plugin p s f :
  instance_at w plugin p s ->
  resolved rt E_init w = Some f ->
  plugin_init rt mm plugin w = Ok true (initialised rt w p s f).
Proof.
  intros [Hp Hs] Hr. unfold plugin_init.
  step_with (load_plugin_live mm w plugin p Hp).
  step_with (named_value_cached_eq rt E_init w).
  rewrite Hr. cbv beta iota.
  rewrite <- (looked_up_heap rt E_init) in Hs.
  unfold caml_callback, caml_register_global_root, set_ocaml_plugin, emit.
  cbn [callback_exn slot_content at_rest].
  unfold bind at 1 2. cbv beta iota. unfold ret at 1.
  unfold bind at 1 2.
  erewrite load_state_live by exact Hs.
  erewrite assign_live by exact Hs.
  unfold bind, ret, initialised. simpl. now rewrite <- app_assoc.
Qed.

Lemma initialised_instance w plugin p s f :
  instance_at w plugin p s ->
  instance_at (initialised rt w p s f) plugin p
    {| ocaml_plugin := caml_apply rt f [Val_unit]; host := host s |}.
Proof.
  intros H. pose proof (instance_at_distinct _ _ _ _ H) as Hne.
  destruct H as [Hp Hs]. unfold instance_at, initialised. simpl.
  rewrite looked_up_heap.
  destruct (live_at_cell _ _ _ Hs) as (i & Ei & Hi). rewrite Ei in *. simpl.
  split.
  - rewrite live_at_insert_ne by exact Hne. exact Hp.
  - eapply live_at_insert_eq. exact Hi.
Qed.

Lemma resolved_cache (r : ocaml_runtime) e w1 w2 :
  cache w1 = cache w2 -> resolved r e w1 = resolved r e w2.
Proof. unfold resolved. now intros ->. Qed.

Lemma pinned_app slot t1 t2 :
  pinned slot (t1 ++ t2) = pinned slot t1 + pinned slot t2.
Proof.
  unfold pinned. induction t1 as [|ev t1 IH]; simpl; [reflexivity|].
  rewrite IH. lia.
Qed.

Lemma callbacks_app t1 t2 : callbacks (t1 ++ t2) = callbacks t1 ++ callbacks t2.
Proof. apply List.filter_app. Qed.

(** C4: on a live instance [plugin_init] returns false exactly when
    [daw_bridge_init] is unresolved, and then nothing has changed; when it
    is resolved the init closure is called once on unit, its result is
    stored as the handle and the handle's slot is registered as a global
    root once.  For an instance that [create_plugin] has just returned,
    the events since creation therefore hold exactly one registration and
    no removal. *)
Theorem C4_init_binds_and_pins_one_handle
    (w : world) (plugin : ptr) (p : clap_plugin) (s : daw_bridge_state) :
  instance_at w plugin p s ->
  exists (ok : bool) (w' : world),
    plugin_init rt mm plugin w = Ok ok w' /\
    (ok = false <-> resolved rt E_init w = None) /\
    match resolved rt E_init w with
    | None => w' = w
    | Some f =>
        let handle := caml_apply rt f [Val_unit] in
        trace w' = trace w ++ [EvCallback E_init f [Val_unit];
                               EvRegisterRoot (plugin_data p)] /\
        instance_at w' plugin p {| ocaml_plugin := handle; host := host s |} /\
        pinned (plugin_data p) (trace w') = pinned (plugin_data p) (trace w) + 1 /\
        resolved rt E_init w' = Some f /\
        forall (w0 : world) (host_ref : Z),
          factory_create_plugin mm host_ref (id s_descriptor) w0 = Ok plugin w ->
          trace w' = trace w0 ++ [EvCalloc plugin; EvCalloc (plugin_data p);
                                  EvCallback E_init f [Val_unit];
                                  EvRegisterRoot (plugin_data p)] /\
          pinned (plugin_data p)
            [EvCalloc plugin; EvCalloc (plugin_data p);
             EvCallback E_init f [Val_unit]; EvRegisterRoot (plugin_data p)] = 1
    end.
Proof.
  intros H. destruct (resolved rt E_init w) as [f|] eqn:Hr.
  - exists true, (initialised rt w p s f).
    split; [now apply plugin_init_resolved|].
    split; [split; discriminate|].
    assert (Ht : trace (initialised rt w p s f) =
                 trace w ++ [EvCallback E_init f [Val_unit];
                             EvRegisterRoot (plugin_data p)]).
    { unfold initialised. simpl. now rewrite looked_up_trace. }
    split; [exact Ht|].
    split; [now apply initialised_instance|].
    split.
    { rewrite Ht, pinned_app. unfold pinned. simpl.
      rewrite Nat.eqb_refl. lia. }
    split.
    { rewrite <- Hr, <- (looked_up_resolved rt E_init w).
      now apply resolved_cache. }
    intros w0 host_ref Hc. rewrite factory_create_plugin_eq in Hc.
    rewrite decide_True in Hc by reflexivity.
    injection Hc as Hpl Hw. rewrite Ht.
    destruct H as [Hp _]. subst w. subst plugin.
    pose proof (created_from_instance w0 host_ref) as [Hp' _].
    rewrite Hp in Hp'. injection Hp' as ->.
    simpl. rewrite <- app_assoc. simpl. split; [reflexivity|].
    unfold pinned. simpl. rewrite Nat.eqb_refl.
    destruct (Nat.eqb_spec (length (heap w0)) (S (length (heap w0)))); lia.
  - exists false, w.
    split; [eapply plugin_init_unresolved; eassumption|].
    split; [now split|reflexivity].
Qed.

Lemma plugin_activate_eq w plugin p s sample_rate min_frames max_frames :
  instance_at w plugin p s ->
  plugin_activate rt mm plugin sample_rate min_frames max_frames w =
    match resolved rt E_activate w with
    | Some f =>
        Ok true (called rt E_activate w f
                   [ocaml_plugin s; caml_copy_double sample_rate; Val_int max_frames])
    | None => Ok false w
    end.
Proof.
  intros [Hp Hs]. unfold plugin_activate.
  step_with (load_plugin_live mm w plugin p Hp).
  step_with (named_value_cached_eq rt E_activate w).
  destruct (resolved rt E_activate w) as [f|] eqn:Hr.
  - rewrite <- (looked_up_heap rt E_activate) in Hs.
    step_with (load_state_live mm _ _ _ Hs). reflexivity.
  - now rewrite (looked_up_unresolved _ _ _ Hr).
Qed.

Lemma plugin_deactivate_eq w plugin p s :
  instance_at w plugin p s ->
  plugin_deactivate rt mm plugin w =
    match resolved rt E_deactivate w with
    | Some f => Ok tt (called rt E_deactivate w f [ocaml_plugin s])
    | None => Ok tt w
    end.
Proof.
  intros [Hp Hs]. unfold plugin_deactivate.
  step_with (load_plugin_live mm w plugin p Hp).
  step_with (named_value_cached_eq rt E_deactivate w).
  destruct (resolved rt E_deactivate w) as [f|] eqn:Hr.
  - rewrite <- (looked_up_heap rt E_deactivate) in Hs.
    step_with (load_state_live mm _ _ _ Hs). reflexivity.
  - now rewrite (looked_up_unresolved _ _ _ Hr).
Qed.

Lemma plugin_process_eq w plugin p s process_arg :
  instance_at w plugin p s ->
  plugin_process rt mm plugin process_arg w =
    match resolved rt E_process w with
    | Some f => Ok 0 (called rt E_process w f [ocaml_plugin s])
    | None => Ok 0 w
    end.
Proof.
  intros [Hp Hs]. unfold plugin_process.
  step_with (load_plugin_live mm w plugin p Hp).
  step_with (named_value_cached_eq rt E_process w).
  destruct (resolved rt E_process w) as [f|] eqn:Hr.
  - rewrite <- (looked_up_heap rt E_process) in Hs.
    unfold bind at 1.
    step_with (load_state_live mm _ _ _ Hs). reflexivity.
  - now rewrite (looked_up_unresolved _ _ _ Hr).
Qed.

End Lifecycle.

Lemma Long_val_Val_int (n : Z) :
  0 <= n < 2 ^ 32 -> Long_val (Val_int n) = Some n.
Proof.
  intros H. unfold Val_int, Val_long, Long_val, intnat_wrap. f_equal.
  rewrite Z.shiftl_mul_pow2 by lia. rewrite Z.shiftr_div_pow2 by lia.
  rewrite Z.mod_small by lia.
  change (2 ^ 1) with 2.
  replace (n * 2 + 1 + 2 ^ 63 - 2 ^ 63) with (1 + n * 2) by lia.
  rewrite Z.div_add by lia. reflexivity.
Qed.

(** C7: on a live instance [plugin_activate] returns false exactly when
    [daw_bridge_activate] is unresolved, and then nothing has changed, in
    particular no call was made; when it is resolved, the one call made
    carries the handle, the sample rate as a boxed double and the maximum
    frame count as a tagged integer that decodes to [max_frames]; the
    minimum frame count has no influence at all. *)
Theorem C7_activate_forwards_rate_and_max
    (rt : runtime) (mm : memory_model) (w : world) (plugin : ptr)
    (p : clap_plugin) (s : daw_bridge_state)
    (sample_rate : float) (min_frames max_frames : Z) :
  instance_at w plugin p s ->
  0 <= max_frames < 2 ^ 32 ->
  exists (ok : bool) (w' : world),
    plugin_activate rt mm plugin sample_rate min_frames max_frames w = Ok ok w' /\
    (ok = false <-> resolved rt E_activate w = None) /\
    match resolved rt E_activate w with
    | None => w' = w
    | Some f =>
        trace w' = trace w ++
          [EvCallback E_activate f
             [ocaml_plugin s; Boxed_double sample_rate; Val_int max_frames]] /\
        heap w' = heap w
    end /\
    Long_val (Val_int max_frames) = Some max_frames /\
    forall min_frames' : Z,
      plugin_activate rt mm plugin sample_rate min_frames' max_frames w = Ok ok w'.
Proof.
  intros H Hmax.
  pose proof (fun mn => plugin_activate_eq rt mm w plugin p s sample_rate mn max_frames H) as E.
  destruct (resolved rt E_activate w) as [f|] eqn:Hr.
  - eexists true, _. split; [apply E|].
    split; [split; discriminate|].
    split; [|split; [now apply Long_val_Val_int | exact E]].
    unfold called. simpl. now rewrite looked_up_trace, looked_up_heap.
  - exists false, w. split; [apply E|].
    split; [now split|].
    split; [reflexivity|]. split; [now apply Long_val_Val_int | exact E].
Qed.

(** ** Destruction *)

Lemma free_both mm w plugin p s :
  instance_at w plugin p s ->
  bind (free mm (plugin_data p)) (fun _ => free mm plugin) w =
    Ok tt {| heap := <[pred plugin := freed_cell (BPlugin p)]>
                       (<[pred (plugin_data p) := freed_cell (BState s)]> (heap w));
             cache := cache w;
             trace := trace w ++ [EvFree (plugin_data p); EvFree plugin] |}.
Proof.
  intros H. pose proof (instance_at_distinct _ _ _ _ H) as Hne.
  destruct H as [Hp Hs].
  step_with (free_live mm _ _ _ Hs).
  erewrite free_live; cycle 1.
  { simpl. destruct (live_at_cell _ _ _ Hs) as (i & Ei & _). rewrite Ei in *.
    simpl. rewrite live_at_insert_ne by exact Hne. exact Hp. }
  simpl. now rewrite <- app_assoc.
Qed.

Lemma plugin_destroy_eq (rt : runtime) mm w plugin p s :
  instance_at w plugin p s ->
  plugin_destroy rt mm plugin w = Ok tt (destroyed rt w plugin p s).
Proof.
  intros H. pose proof (instance_at_looked_up rt E_destroy _ _ _ _ H) as H1.
  destruct H as [Hp Hs]. unfold plugin_destroy.
  step_with (load_plugin_live mm w plugin p Hp).
  step_with (named_value_cached_eq rt E_destroy w).
  unfold destroyed, release_events.
  destruct (resolved rt E_destroy w) as [f|] eqn:Hr.
  - unfold bind at 1 2. rewrite (load_state_live mm _ _ _ (proj2 H1)).
    destruct (is_Val_unit (ocaml_plugin s)).
    + unfold ret at 1. rewrite (free_both mm _ _ _ _ H1). reflexivity.
    + unfold caml_callback, caml_remove_global_root, emit.
      cbn [callback_exn slot_content at_rest]. unfold bind at 1 2 3, ret.
      match goal with
      | |- match free mm _ ?W with _ => _ end = _ =>
          pose proof (free_both mm W plugin p s H1) as F
      end.
      unfold bind in F. rewrite F. simpl.
      now rewrite <- !app_assoc.
  - unfold bind at 1. unfold ret at 1. rewrite (free_both mm _ _ _ _ H1). reflexivity.
Qed.

Lemma destroyed_cells rt w plugin p s :
  instance_at w plugin p s ->
  cell_at (heap (destroyed rt w plugin p s)) plugin = Some (freed_cell (BPlugin p)) /\
  cell_at (heap (destroyed rt w plugin p s)) (plugin_data p) = Some (freed_cell (BState s)).
Proof.
  intros H. pose proof (instance_at_distinct _ _ _ _ H) as Hne.
  destruct H as [Hp Hs].
  destruct (live_at_cell _ _ _ Hp) as (i & Ei & Hi).
  destruct (live_at_cell _ _ _ Hs) as (j & Ej & Hj).
  unfold destroyed. simpl. rewrite looked_up_heap, Ei, Ej in *. simpl.
  apply lookup_lt_Some in Hi, Hj. split.
  - rewrite list_lookup_insert_eq; [reflexivity|]. now rewrite length_insert.
  - rewrite list_lookup_insert_ne by congruence.
    now rewrite list_lookup_insert_eq.
Qed.

Lemma initialised_world_instance :
  instance_at initialised_world 1%nat (new_plugin 2%nat) initialised_state.
Proof. split; reflexivity. Defined.

(** C1, as stated, fails: create, init, destroy, destroy.  The second
    destroy reads [plugin->plugin_data] out of the struct the first one
    freed.  In the abstract machine that is a fault; where freed memory
    stays readable the handle is still there (destroy never resets it), so
    the destroy closure is called again, the root removed again and both
    structs freed again. *)
Lemma C1_double_destroy_counterexample :
  factory_create_plugin Checked 7 "com.dancer.daw-bridge" empty_world
    = Ok 1%nat created_world /\
  plugin_init full_runtime Checked 1%nat created_world = Ok true initialised_world /\
  (exists w1,
     plugin_destroy full_runtime Checked 1%nat initialised_world = Ok tt w1 /\
     plugin_destroy full_runtime Checked 1%nat w1 = Fault UseAfterFree) /\
  (exists w1 w2,
     plugin_destroy full_runtime Unchecked 1%nat initialised_world = Ok tt w1 /\
     plugin_destroy full_runtime Unchecked 1%nat w1 = Ok tt w2 /\
     trace w2 =
       [EvCalloc 1%nat; EvCalloc 2%nat;
        EvCallback E_init (Block 1) [Val_unit]; EvRegisterRoot 2%nat;
        EvCallback E_destroy (Block 2) [Block 100]; EvRemoveRoot 2%nat;
        EvFree 2%nat; EvFree 1%nat;
        EvCallback E_destroy (Block 2) [Block 100]; EvRemoveRoot 2%nat;
        EvFree 2%nat; EvFree 1%nat] /\
     pinned 2%nat (trace w2) = -1 /\
     free_count 2%nat (trace w2) = 2%nat /\
     free_count 1%nat (trace w2) = 2%nat) /\
  ~ destroy_is_idempotent.
Proof.
  split; [reflexivity|]. split; [reflexivity|].
  split; [eexists; split; [cbv; reflexivity | reflexivity]|].
  split.
  { do 2 eexists. split; [cbv; reflexivity|]. split; [cbv; reflexivity|].
    repeat split. }
  intros Hc.
  destruct (Hc full_runtime Checked initialised_world 1%nat (new_plugin 2%nat)
              initialised_state
              (destroyed full_runtime initialised_world 1%nat (new_plugin 2%nat)
                 initialised_state)
              initialised_world_instance eq_refl)
    as (w2 & H2 & _).
  discriminate H2.
Qed.

(** C1, amended: on a live instance [plugin_destroy] returns after calling
    the destroy closure and removing the root at most once (exactly when
    [daw_bridge_destroy] is resolved and the handle is not [Val_unit]) and
    freeing the state and the plugin struct once each, in that order; the
    freed state still holds the handle.  A second destroy of the same
    pointer is not a no-op: it reads freed memory, which the abstract
    machine faults on. *)
Theorem C1_destroy_releases_once_then_faults
    (rt : runtime) (mm : memory_model) (w : world) (plugin : ptr)
    (p : clap_plugin) (s : daw_bridge_state) :
  instance_at w plugin p s ->
  exists w1 : world,
    plugin_destroy rt mm plugin w = Ok tt w1 /\
    trace w1 = trace w ++ release_events rt w p s ++
               [EvFree (plugin_data p); EvFree plugin] /\
    (length (callbacks (release_events rt w p s)) <= 1)%nat /\
    (-1 <= pinned (plugin_data p) (release_events rt w p s) <= 0) /\
    cell_at (heap w1) plugin = Some (freed_cell (BPlugin p)) /\
    cell_at (heap w1) (plugin_data p) = Some (freed_cell (BState s)) /\
    plugin_destroy rt Checked plugin w1 = Fault UseAfterFree.
Proof.
  intros H. exists (destroyed rt w plugin p s).
  destruct (destroyed_cells rt w plugin p s H) as [Cp Cs].
  split; [now apply plugin_destroy_eq|].
  split; [unfold destroyed; simpl; now rewrite looked_up_trace|].
  split.
  { unfold release_events. destruct (resolved rt E_destroy w); [|simpl; lia].
    destruct (is_Val_unit (ocaml_plugin s)); simpl; lia. }
  split.
  { unfold release_events, pinned. destruct (resolved rt E_destroy w); [|simpl; lia].
    destruct (is_Val_unit (ocaml_plugin s)); simpl; [lia|].
    rewrite Nat.eqb_refl. lia. }
  split; [exact Cp|]. split; [exact Cs|].
  unfold plugin_destroy. apply bind_Fault.
  eapply load_plugin_freed. exact Cp.
Qed.

Lemma C1_destroy_releases_once_then_faults_witness :
  instance_at initialised_world 1%nat (new_plugin 2%nat) initialised_state /\
  exists w1 : world,
    plugin_destroy full_runtime Checked 1%nat initialised_world = Ok tt w1 /\
    trace w1 = trace initialised_world ++
               release_events full_runtime initialised_world (new_plugin 2%nat)
                 initialised_state ++
               [EvFree 2%nat; EvFree 1%nat] /\
    (length (callbacks (release_events full_runtime initialised_world
                          (new_plugin 2%nat) initialised_state)) <= 1)%nat /\
    (-1 <= pinned 2%nat (release_events full_runtime initialised_world
                           (new_plugin 2%nat) initialised_state) <= 0) /\
    cell_at (heap w1) 1%nat = Some (freed_cell (BPlugin (new_plugin 2%nat))) /\
    cell_at (heap w1) 2%nat = Some (freed_cell (BState initialised_state)) /\
    plugin_destroy full_runtime Checked 1%nat w1 = Fault UseAfterFree.
Proof.
  split; [split; reflexivity|].
  apply (C1_destroy_releases_once_then_faults full_runtime Checked
           initialised_world 1%nat (new_plugin 2%nat) initialised_state).
  split; reflexivity.
Defined.

(** ** The handle guard *)

(** The sibling that has the guard: with the handle still [Val_unit],
    [plugin_destroy] makes no call into the runtime. *)
Lemma plugin_destroy_unbound_no_callback (rt : runtime) mm w plugin p s :
  instance_at w plugin p s ->
  is_Val_unit (ocaml_plugin s) = true ->
  exists w1,
    plugin_destroy rt mm plugin w = Ok tt w1 /\
    trace w1 = trace w ++ [EvFree (plugin_data p); EvFree plugin].
Proof.
  intros H Hu. exists (destroyed rt w plugin p s).
  split; [now apply plugin_destroy_eq|].
  unfold destroyed, release_events. simpl. rewrite looked_up_trace, Hu.
  now destruct (resolved rt E_destroy w).
Qed.

(** The three functions without the guard: the handle goes to the bridge
    whatever it is, [Val_unit] included. *)
Lemma unguarded_calls_forward_any_handle (rt : runtime) mm w plugin p s sr mn mx a :
  instance_at w plugin p s ->
  (forall f, resolved rt E_activate w = Some f ->
     exists w', plugin_activate rt mm plugin sr mn mx w = Ok true w' /\
       trace w' = trace w ++
         [EvCallback E_activate f [ocaml_plugin s; Boxed_double sr; Val_int mx]]) /\
  (forall f, resolved rt E_deactivate w = Some f ->
     exists w', plugin_deactivate rt mm plugin w = Ok tt w' /\
       trace w' = trace w ++ [EvCallback E_deactivate f [ocaml_plugin s]]) /\
  (forall f, resolved rt E_process w = Some f ->
     exists w', plugin_process rt mm plugin a w = Ok 0 w' /\
       trace w' = trace w ++ [EvCallback E_process f [ocaml_plugin s]]).
Proof.
  intros H. repeat split; intros f Hr; eexists.
  - rewrite (plugin_activate_eq rt mm w plugin p s sr mn mx H), Hr.
    split; [reflexivity|]. unfold called. simpl. now rewrite looked_up_trace.
  - rewrite (plugin_deactivate_eq rt mm w plugin p s H), Hr.
    split; [reflexivity|]. unfold called. simpl. now rewrite looked_up_trace.
  - rewrite (plugin_process_eq rt mm w plugin p s a H), Hr.
    split; [reflexivity|]. unfold called. simpl. now rewrite looked_up_trace.
Qed.

(** C2: the code at the failing input.  On the instance [create_plugin]
    has just returned, whose handle is still [Val_unit] because init was
    never called, [process], [deactivate] and [activate] each call their
    bridge entry point with that unbound handle; only [destroy] holds the
    call back. *)
Theorem C2_unbound_handle_reaches_bridge :
  factory_create_plugin Checked 7 "com.dancer.daw-bridge" empty_world
    = Ok 1%nat created_world /\
  live_at (heap created_world) 2%nat = Some (BState created_state) /\
  ocaml_plugin created_state = Val_unit /\
  (exists w',
     plugin_process full_runtime Checked 1%nat 0%nat created_world = Ok 0 w' /\
     trace w' = trace created_world ++ [EvCallback E_process (Block 5) [Val_unit]]) /\
  (exists w',
     plugin_deactivate full_runtime Checked 1%nat created_world = Ok tt w' /\
     trace w' = trace created_world ++ [EvCallback E_deactivate (Block 4) [Val_unit]]) /\
  (exists w',
     plugin_activate full_runtime Checked 1%nat 48000%float 64 512 created_world
       = Ok true w' /\
     trace w' = trace created_world ++
       [EvCallback E_activate (Block 3) [Val_unit; Boxed_double 48000%float; Val_int 512]]) /\
  (exists w',
     plugin_destroy full_runtime Checked 1%nat created_world = Ok tt w' /\
     trace w' = trace created_world ++ [EvFree 2%nat; EvFree 1%nat]).
Proof.
  split; [reflexivity|]. split; [reflexivity|]. split; [reflexivity|].
  repeat split; eexists; (split; [cbv; reflexivity | reflexivity]).
Qed.

(** ** Processing and the lifecycle order *)



(** ** The full lifecycle *)

(** create, init, activate(48000, 64, 512), start_processing, a hundred
    process calls, stop_processing, deactivate, destroy: every call
    returns, the root registered by init is removed again, both structs
    are freed once and the runtime has been called 104 times. *)
Example full_lifecycle_releases_everything :
  exists w,
    run full_runtime Checked 1%nat
      ([CInit; CActivate 48000%float 64 512; CStartProcessing]
         ++ repeat (CProcess 0%nat) 100
         ++ [CStopProcessing; CDeactivate; CDestroy])
      created_world = Ok tt w /\
    pinned 2%nat (trace w) = 0 /\
    free_count 1%nat (trace w) = 1%nat /\
    free_count 2%nat (trace w) = 1%nat /\
    length (callbacks (trace w)) = 104%nat /\
    run full_runtime Checked 1%nat [CProcess 0%nat] w = Fault UseAfterFree.
Proof.
  eexists. split; [vm_compute; reflexivity|]. repeat split.
Qed.

(** With nothing registered, init and activate report failure, process
    still returns 0, and the runtime is never called. *)
Example bare_runtime_degrades :
  plugin_init bare_runtime Checked 1%nat created_world = Ok false created_world /\
  plugin_activate bare_runtime Checked 1%nat 48000%float 64 512 created_world
    = Ok false created_world /\
  plugin_deactivate bare_runtime Checked 1%nat created_world = Ok tt created_world /\
  plugin_process bare_runtime Checked 1%nat 0%nat created_world = Ok 0 created_world.
Proof. repeat split. Qed.

(** ** Instances of the statements on the created and initialised worlds *)


Lemma C4_init_binds_and_pins_one_handle_witness :
  instance_at created_world 1%nat (new_plugin 2%nat) created_state /\
  exists (ok : bool) (w' : world),
    plugin_init full_runtime Checked 1%nat created_world = Ok ok w' /\
    (ok = false <-> resolved full_runtime E_init created_world = None) /\
    match resolved full_runtime E_init created_world with
    | None => w' = created_world
    | Some f =>
        let handle := caml_apply full_runtime f [Val_unit] in
        trace w' = trace created_world ++ [EvCallback E_init f [Val_unit];
                                           EvRegisterRoot 2%nat] /\
        instance_at w' 1%nat (new_plugin 2%nat)
          {| ocaml_plugin := handle; host := host created_state |} /\
        pinned 2%nat (trace w') = pinned 2%nat (trace created_world) + 1 /\
        resolved full_runtime E_init w' = Some f /\
        forall (w0 : world) (host_ref : Z),
          factory_create_plugin Checked host_ref (id s_descriptor) w0
            = Ok 1%nat created_world ->
          trace w' = trace w0 ++ [EvCalloc 1%nat; EvCalloc 2%nat;
                                  EvCallback E_init f [Val_unit];
                                  EvRegisterRoot 2%nat] /\
          pinned 2%nat
            [EvCalloc 1%nat; EvCalloc 2%nat;
             EvCallback E_init f [Val_unit]; EvRegisterRoot 2%nat] = 1
    end.
Proof.
  split; [split; reflexivity|].
  apply (C4_init_binds_and_pins_one_handle full_runtime Checked
           created_world 1%nat (new_plugin 2%nat) created_state).
  split; reflexivity.
Defined.

Lemma C7_activate_forwards_rate_and_max_witness :
  instance_at initialised_world 1%nat (new_plugin 2%nat) initialised_state /\
  0 <= 512 < 2 ^ 32 /\
  exists (ok : bool) (w' : world),
    plugin_activate full_runtime Checked 1%nat 48000%float 64 512 initialised_world
      = Ok ok w' /\
    (ok = false <-> resolved full_runtime E_activate initialised_world = None) /\
    match resolved full_runtime E_activate initialised_world with
    | None => w' = initialised_world
    | Some f =>
        trace w' = trace initialised_world ++
          [EvCallback E_activate f
             [ocaml_plugin initialised_state; Boxed_double 48000%float; Val_int 512]] /\
        heap w' = heap initialised_world
    end /\
    Long_val (Val_int 512) = Some 512 /\
    forall min_frames' : Z,
      plugin_activate full_runtime Checked 1%nat 48000%float min_frames' 512
        initialised_world = Ok ok w'.
Proof.
  split; [split; reflexivity|]. split; [lia|].
  apply (C7_activate_forwards_rate_and_max full_runtime Checked
           initialised_world 1%nat (new_plugin 2%nat) initialised_state
           48000%float 64 512).
  - split; reflexivity.
  - lia.
Defined.

(** ** Further properties of the shim *)

Lemma live_at_app h a b c :
  live_at h a = Some b -> live_at (h ++ c) a = Some b.
Proof.
  unfold live_at, cell_at. destruct a as [|i]; [discriminate|].
  destruct (h !! i) eqn:E; [|discriminate].
  now rewrite (lookup_app_l_Some _ _ _ _ E).
Qed.

Lemma statics_get_set_other e e' v s :
  e <> e' -> statics_get e' (statics_set e v s) = statics_get e' s.
Proof. destruct e, e'; intros H; try reflexivity; now elim H. Qed.

Lemma resolved_looked_up_other rt rt' e e' w :
  e <> e' -> resolved rt' e' (looked_up rt e w) = resolved rt' e' w.
Proof.
  intros H. unfold resolved, looked_up.
  destruct (statics_get e (cache w)); [reflexivity|].
  simpl. now rewrite statics_get_set_other.
Qed.

Lemma resolved_sticky rt rt' e w f :
  resolved rt e w = Some f -> resolved rt' e (looked_up rt e w) = Some f.
Proof.
  unfold resolved, looked_up.
  destruct (statics_get e (cache w)) eqn:E.
  - intros [= ->]. now rewrite E.
  - intros H. simpl. now rewrite statics_get_set, H.
Qed.

Lemma cache_looked_up rt e w :
  statics_get e (cache (looked_up rt e w)) = resolved rt e w.
Proof.
  unfold resolved, looked_up.
  destruct (statics_get e (cache w)) eqn:E; [exact E|].
  simpl. apply statics_get_set.
Qed.

Lemma free_count_app a t1 t2 :
  free_count a (t1 ++ t2) = (free_count a t1 + free_count a t2)%nat.
Proof. unfold free_count. now rewrite List.filter_app, length_app. Qed.

Lemma called_instance rt e w f args plugin p s :
  instance_at w plugin p s -> instance_at (called rt e w f args) plugin p s.
Proof. unfold instance_at, called. simpl. now rewrite looked_up_heap. Qed.

Lemma called_trace rt e w f args :
  trace (called rt e w f args) = trace w ++ [EvCallback e f args].
Proof. unfold called. simpl. now rewrite looked_up_trace. Qed.

Lemma initialised_trace rt w p s f :
  trace (initialised rt w p s f) =
    trace w ++ [EvCallback E_init f [Val_unit]; EvRegisterRoot (plugin_data p)].
Proof. unfold initialised. simpl. now rewrite looked_up_trace. Qed.

Lemma destroyed_trace rt w plugin p s :
  trace (destroyed rt w plugin p s) =
    trace w ++ release_events rt w p s ++ [EvFree (plugin_data p); EvFree plugin].
Proof. unfold destroyed. simpl. now rewrite looked_up_trace. Qed.



(** X2: destroying a live instance whose handle is still [Val_unit] (init
    never ran, or failed) makes no call into the runtime and removes no
    root, whether or not [daw_bridge_destroy] is registered; it frees the
    state and then the plugin struct, once each. *)
Theorem X2_destroy_without_handle_only_frees
    (rt : runtime) (mm : memory_model) (w : world) (plugin : ptr)
    (p : clap_plugin) (s : daw_bridge_state) :
  instance_at w plugin p s ->
  is_Val_unit (ocaml_plugin s) = true ->
  exists w1 : world,
    plugin_destroy rt mm plugin w = Ok tt w1 /\
    trace w1 = trace w ++ [EvFree (plugin_data p); EvFree plugin] /\
    callbacks (trace w1) = callbacks (trace w) /\
    pinned (plugin_data p) (trace w1) = pinned (plugin_data p) (trace w) /\
    live_at (heap w1) plugin = None /\
    live_at (heap w1) (plugin_data p) = None.
Proof.
  intros H Hu.
  destruct (plugin_destroy_unbound_no_callback rt mm w plugin p s H Hu)
    as (w1 & Hd & Ht).
  exists w1. split; [exact Hd|]. split; [exact Ht|].
  rewrite Ht, callbacks_app, pinned_app. simpl.
  split; [apply app_nil_r|]. split; [unfold pinned; simpl; lia|].
  rewrite (plugin_destroy_eq rt mm w plugin p s H) in Hd. injection Hd as <-.
  destruct (destroyed_cells rt w plugin p s H) as [Cp Cs].
  unfold live_at. now rewrite Cp, Cs.
Qed.

Lemma X2_destroy_without_handle_only_frees_witness :
  instance_at created_world 1%nat (new_plugin 2%nat) created_state /\
  is_Val_unit (ocaml_plugin created_state) = true /\
  exists w1 : world,
    plugin_destroy full_runtime Checked 1%nat created_world = Ok tt w1 /\
    trace w1 = trace created_world ++ [EvFree 2%nat; EvFree 1%nat] /\
    callbacks (trace w1) = callbacks (trace created_world) /\
    pinned 2%nat (trace w1) = pinned 2%nat (trace created_world) /\
    live_at (heap w1) 1%nat = None /\
    live_at (heap w1) 2%nat = None.
Proof.
  split; [split; reflexivity|]. split; [reflexivity|].
  apply (X2_destroy_without_handle_only_frees full_runtime Checked created_world
           1%nat (new_plugin 2%nat) created_state).
  - split; reflexivity.
  - reflexivity.
Defined.

Lemma resolved_initialised rt rt' e w p s f :
  e <> E_init -> resolved rt' e (initialised rt w p s f) = resolved rt' e w.
Proof.
  intros H.
  rewrite <- (resolved_looked_up_other rt rt' E_init e w) by congruence.
  now apply resolved_cache.
Qed.

Lemma resolved_initialised_init (rt rt' : runtime) w p s f :
  resolved rt E_init w = Some f ->
  resolved rt' E_init (initialised rt w p s f) = Some f.
Proof.
  intros H. rewrite <- (resolved_sticky rt rt' E_init w f H).
  now apply resolved_cache.
Qed.

(** X3: init followed by destroy on a live instance, with
    [daw_bridge_init] resolved.  Both structs are freed once.  The root
    that init registered is removed again only when [daw_bridge_destroy]
    is resolved and the handle init stored is not [Val_unit]; otherwise
    the slot is still registered as a root after its memory was freed. *)
Theorem X3_init_then_destroy_root_balance
    (rt : runtime) (mm : memory_model) (w : world) (plugin : ptr)
    (p : clap_plugin) (s : daw_bridge_state) (f : value) :
  instance_at w plugin p s ->
  resolved rt E_init w = Some f ->
  exists w1 w2 : world,
    plugin_init rt mm plugin w = Ok true w1 /\
    plugin_destroy rt mm plugin w1 = Ok tt w2 /\
    pinned (plugin_data p) (trace w2) =
      pinned (plugin_data p) (trace w) +
      match resolved rt E_destroy w with
      | Some _ => if is_Val_unit (caml_apply rt f [Val_unit]) then 1 else 0
      | None => 1
      end /\
    free_count plugin (trace w2) = S (free_count plugin (trace w)) /\
    free_count (plugin_data p) (trace w2) = S (free_count (plugin_data p) (trace w)).
Proof.
  intros H Hr.
  pose proof (instance_at_distinct _ _ _ _ H) as Hne.
  pose proof (initialised_instance rt w plugin p s f H) as H1.
  exists (initialised rt w p s f), (destroyed rt (initialised rt w p s f) plugin p
            {| ocaml_plugin := caml_apply rt f [Val_unit]; host := host s |}).
  split; [now apply plugin_init_resolved|].
  split; [now apply plugin_destroy_eq|].
  rewrite destroyed_trace, initialised_trace.
  unfold release_events. rewrite resolved_initialised by discriminate. simpl ocaml_plugin.
  assert (E1 : Nat.eqb plugin (plugin_data p) = false) by now apply Nat.eqb_neq.
  assert (E2 : Nat.eqb (plugin_data p) plugin = false) by (apply Nat.eqb_neq; congruence).
  rewrite !pinned_app, !free_count_app.
  destruct (resolved rt E_destroy w) as [g|];
    [destruct (is_Val_unit (caml_apply rt f [Val_unit]))|];
    unfold pinned, free_count; simpl; rewrite ?Nat.eqb_refl, ?E1, ?E2; simpl;
    repeat split; lia.
Qed.

Lemma X3_init_then_destroy_root_balance_witness :
  instance_at created_world 1%nat (new_plugin 2%nat) created_state /\
  resolved full_runtime E_init created_world = Some (Block 1) /\
  exists w1 w2 : world,
    plugin_init full_runtime Checked 1%nat created_world = Ok true w1 /\
    plugin_destroy full_runtime Checked 1%nat w1 = Ok tt w2 /\
    pinned 2%nat (trace w2) =
      pinned 2%nat (trace created_world) +
      match resolved full_runtime E_destroy created_world with
      | Some _ => if is_Val_unit (caml_apply full_runtime (Block 1) [Val_unit]) then 1 else 0
      | None => 1
      end /\
    free_count 1%nat (trace w2) = S (free_count 1%nat (trace created_world)) /\
    free_count 2%nat (trace w2) = S (free_count 2%nat (trace created_world)).
Proof.
  split; [split; reflexivity|]. split; [reflexivity|].
  apply (X3_init_then_destroy_root_balance full_runtime Checked created_world
           1%nat (new_plugin 2%nat) created_state (Block 1)).
  - split; reflexivity.
  - reflexivity.
Defined.

(** X4: [plugin_init] has no guard against a second call.  Called twice
    on a live instance with [daw_bridge_init] resolved, it calls the init
    closure twice, overwrites the stored handle with the second result
    without telling the runtime about the first, and registers the same
    slot as a root twice. *)
Theorem X4_init_twice_registers_twice
    (rt : runtime) (mm : memory_model) (w : world) (plugin : ptr)
    (p : clap_plugin) (s : daw_bridge_state) (f : value) :
  instance_at w plugin p s ->
  resolved rt E_init w = Some f ->
  exists w1 w2 : world,
    plugin_init rt mm plugin w = Ok true w1 /\
    plugin_init rt mm plugin w1 = Ok true w2 /\
    trace w2 = trace w ++
      [EvCallback E_init f [Val_unit]; EvRegisterRoot (plugin_data p);
       EvCallback E_init f [Val_unit]; EvRegisterRoot (plugin_data p)] /\
    pinned (plugin_data p) (trace w2) = pinned (plugin_data p) (trace w) + 2 /\
    instance_at w2 plugin p
      {| ocaml_plugin := caml_apply rt f [Val_unit]; host := host s |}.
Proof.
  intros H Hr.
  pose proof (initialised_instance rt w plugin p s f H) as H1.
  pose proof (resolved_initialised_init rt rt w p s f Hr) as Hr1.
  pose proof (initialised_instance rt _ plugin p _ f H1) as H2.
  exists (initialised rt w p s f),
         (initialised rt (initialised rt w p s f) p
            {| ocaml_plugin := caml_apply rt f [Val_unit]; host := host s |} f).
  split; [exact (plugin_init_resolved rt mm w plugin p s f H Hr)|].
  split; [exact (plugin_init_resolved rt mm _ plugin p _ f H1 Hr1)|].
  rewrite !initialised_trace, <- app_assoc. split; [reflexivity|].
  split; [|exact H2].
  rewrite pinned_app. unfold pinned. simpl. rewrite Nat.eqb_refl. lia.
Qed.

Lemma X4_init_twice_registers_twice_witness :
  instance_at created_world 1%nat (new_plugin 2%nat) created_state /\
  resolved full_runtime E_init created_world = Some (Block 1) /\
  exists w1 w2 : world,
    plugin_init full_runtime Checked 1%nat created_world = Ok true w1 /\
    plugin_init full_runtime Checked 1%nat w1 = Ok true w2 /\
    trace w2 = trace created_world ++
      [EvCallback E_init (Block 1) [Val_unit]; EvRegisterRoot 2%nat;
       EvCallback E_init (Block 1) [Val_unit]; EvRegisterRoot 2%nat] /\
    pinned 2%nat (trace w2) = pinned 2%nat (trace created_world) + 2 /\
    instance_at w2 1%nat (new_plugin 2%nat)
      {| ocaml_plugin := caml_apply full_runtime (Block 1) [Val_unit];
         host := host created_state |}.
Proof.
  split; [split; reflexivity|]. split; [reflexivity|].
  apply (X4_init_twice_registers_twice full_runtime Checked created_world
           1%nat (new_plugin 2%nat) created_state (Block 1)).
  - split; reflexivity.
  - reflexivity.
Defined.

Lemma resolved_called rt rt' e w f args g :
  resolved rt e w = Some g -> resolved rt' e (called rt e w f args) = Some g.
Proof.
  intros H. rewrite <- (resolved_sticky rt rt' e w g H).
  now apply resolved_cache.
Qed.

(** X5: [plugin_activate] has no guard against a second call either.  Two
    activations in a row on a live instance with [daw_bridge_activate]
    resolved both return true and both reach the runtime, each with its
    own sample rate and maximum frame count, in call order. *)
Theorem X5_activate_twice_forwards_both
    (rt : runtime) (mm : memory_model) (w : world) (plugin : ptr)
    (p : clap_plugin) (s : daw_bridge_state) (f : value)
    (sr1 sr2 : float) (mn1 mx1 mn2 mx2 : Z) :
  instance_at w plugin p s ->
  resolved rt E_activate w = Some f ->
  exists w1 w2 : world,
    plugin_activate rt mm plugin sr1 mn1 mx1 w = Ok true w1 /\
    plugin_activate rt mm plugin sr2 mn2 mx2 w1 = Ok true w2 /\
    trace w2 = trace w ++
      [EvCallback E_activate f [ocaml_plugin s; Boxed_double sr1; Val_int mx1];
       EvCallback E_activate f [ocaml_plugin s; Boxed_double sr2; Val_int mx2]] /\
    heap w2 = heap w.
Proof.
  intros H Hr.
  pose proof (called_instance rt E_activate w f
                [ocaml_plugin s; caml_copy_double sr1; Val_int mx1] plugin p s H) as H1.
  pose proof (resolved_called rt rt E_activate w f
                [ocaml_plugin s; caml_copy_double sr1; Val_int mx1] f Hr) as Hr1.
  exists (called rt E_activate w f [ocaml_plugin s; caml_copy_double sr1; Val_int mx1]),
         (called rt E_activate
            (called rt E_activate w f [ocaml_plugin s; caml_copy_double sr1; Val_int mx1])
            f [ocaml_plugin s; caml_copy_double sr2; Val_int mx2]).
  split; [rewrite (plugin_activate_eq rt mm w plugin p s sr1 mn1 mx1 H), Hr; reflexivity|].
  split; [rewrite (plugin_activate_eq rt mm _ plugin p s sr2 mn2 mx2 H1), Hr1; reflexivity|].
  rewrite !called_trace, <- app_assoc. split; [reflexivity|].
  unfold called. simpl. now rewrite !looked_up_heap.
Qed.

Lemma X5_activate_twice_forwards_both_witness :
  instance_at initialised_world 1%nat (new_plugin 2%nat) initialised_state /\
  resolved full_runtime E_activate initialised_world = Some (Block 3) /\
  exists w1 w2 : world,
    plugin_activate full_runtime Checked 1%nat 44100%float 32 256 initialised_world
      = Ok true w1 /\
    plugin_activate full_runtime Checked 1%nat 48000%float 64 512 w1 = Ok true w2 /\
    trace w2 = trace initialised_world ++
      [EvCallback E_activate (Block 3)
         [ocaml_plugin initialised_state; Boxed_double 44100%float; Val_int 256];
       EvCallback E_activate (Block 3)
         [ocaml_plugin initialised_state; Boxed_double 48000%float; Val_int 512]] /\
    heap w2 = heap initialised_world.
Proof.
  split; [split; reflexivity|]. split; [reflexivity|].
  apply (X5_activate_twice_forwards_both full_runtime Checked initialised_world
           1%nat (new_plugin 2%nat) initialised_state (Block 3)
           44100%float 48000%float 32 256 64 512).
  - split; reflexivity.
  - reflexivity.
Defined.

(** X7: an unresolved entry point is looked up again on the next call.
    If [daw_bridge_init] is not registered, [plugin_init] returns false
    and leaves the static NULL; once the runtime has registered the name,
    the same call on the same instance succeeds and binds the handle. *)
Theorem X7_unresolved_entry_point_is_retried
    (rt rt' : runtime) (mm : memory_model) (w : world) (plugin : ptr)
    (p : clap_plugin) (s : daw_bridge_state) (f : value) :
  instance_at w plugin p s ->
  resolved rt E_init w = None ->
  caml_named_value rt' "daw_bridge_init" = Some f ->
  exists w1 w2 : world,
    plugin_init rt mm plugin w = Ok false w1 /\
    statics_get E_init (cache w1) = None /\
    plugin_init rt' mm plugin w1 = Ok true w2 /\
    statics_get E_init (cache w2) = Some f /\
    instance_at w2 plugin p
      {| ocaml_plugin := caml_apply rt' f [Val_unit]; host := host s |}.
Proof.
  intros H Hr Hn.
  assert (Hc : statics_get E_init (cache w) = None).
  { unfold resolved in Hr. now destruct (statics_get E_init (cache w)). }
  assert (Hr' : resolved rt' E_init w = Some f).
  { unfold resolved. rewrite Hc. exact Hn. }
  exists w, (initialised rt' w p s f).
  split; [eapply plugin_init_unresolved; eassumption|].
  split; [exact Hc|].
  split; [now apply plugin_init_resolved|].
  split; [|now apply initialised_instance].
  change (statics_get E_init (cache (looked_up rt' E_init w)) = Some f).
  now rewrite cache_looked_up.
Qed.

Lemma X7_unresolved_entry_point_is_retried_witness :
  instance_at created_world 1%nat (new_plugin 2%nat) created_state /\
  resolved bare_runtime E_init created_world = None /\
  caml_named_value full_runtime "daw_bridge_init" = Some (Block 1) /\
  exists w1 w2 : world,
    plugin_init bare_runtime Checked 1%nat created_world = Ok false w1 /\
    statics_get E_init (cache w1) = None /\
    plugin_init full_runtime Checked 1%nat w1 = Ok true w2 /\
    statics_get E_init (cache w2) = Some (Block 1) /\
    instance_at w2 1%nat (new_plugin 2%nat)
      {| ocaml_plugin := caml_apply full_runtime (Block 1) [Val_unit];
         host := host created_state |}.
Proof.
  split; [split; reflexivity|]. split; [reflexivity|]. split; [reflexivity|].
  apply (X7_unresolved_entry_point_is_retried bare_runtime full_runtime Checked
           created_world 1%nat (new_plugin 2%nat) created_state (Block 1)).
  - split; reflexivity.
  - reflexivity.
  - reflexivity.
Defined.

(** ** Several instances, whole call sequences *)

Lemma live_at_bound h a b : live_at h a = Some b -> (0 < a <= length h)%nat.
Proof.
  intros H. apply live_at_cell in H as (i & -> & Hi).
  apply lookup_lt_Some in Hi. lia.
Qed.













(** X9: [create_plugin] with the descriptor's identity never disturbs an
    instance that already exists: it stays live as it was, and the new
    plugin struct and its state are at addresses different from both of
    its structs, so no two instances ever share a state. *)
Theorem X9_create_keeps_existing_instances
    (mm : memory_model) (w : world) (host_ref : Z)
    (q : ptr) (pq : clap_plugin) (sq : daw_bridge_state) :
  instance_at w q pq sq ->
  exists (plugin : ptr) (w' : world),
    factory_create_plugin mm host_ref (id s_descriptor) w = Ok plugin w' /\
    instance_at w' q pq sq /\
    instance_at w' plugin (new_plugin (S plugin))
      {| ocaml_plugin := Val_unit; host := host_ref |} /\
    plugin <> q /\ plugin <> plugin_data pq /\
    S plugin <> q /\ S plugin <> plugin_data pq.
Proof.
  intros [Hq Hqs].
  exists (S (length (heap w))), (created_from w host_ref).
  split; [rewrite factory_create_plugin_eq; now rewrite decide_True|].
  split; [split; unfold created_from; simpl; now apply live_at_app|].
  split; [apply created_from_instance|].
  apply live_at_bound in Hq, Hqs. lia.
Qed.

Lemma X9_create_keeps_existing_instances_witness :
  instance_at initialised_world 1%nat (new_plugin 2%nat) initialised_state /\
  exists (plugin : ptr) (w' : world),
    factory_create_plugin Checked 8 (id s_descriptor) initialised_world = Ok plugin w' /\
    instance_at w' 1%nat (new_plugin 2%nat) initialised_state /\
    instance_at w' plugin (new_plugin (S plugin))
      {| ocaml_plugin := Val_unit; host := 8 |} /\
    plugin <> 1%nat /\ plugin <> plugin_data (new_plugin 2%nat) /\
    S plugin <> 1%nat /\ S plugin <> plugin_data (new_plugin 2%nat).
Proof.
  split; [split; reflexivity|].
  apply (X9_create_keeps_existing_instances Checked initialised_world 8
           1%nat (new_plugin 2%nat) initialised_state).
  split; reflexivity.
Defined.



Lemma run_process_repeat (rt : runtime) mm plugin p s f a n :
  forall w,
    instance_at w plugin p s ->
    resolved rt E_process w = Some f ->
    exists w',
      run rt mm plugin (repeat (CProcess a) n) w = Ok tt w' /\
      trace w' = trace w ++ repeat (EvCallback E_process f [ocaml_plugin s]) n /\
      heap w' = heap w.
Proof.
  induction n as [|n IH]; intros w H Hr.
  - exists w. split; [reflexivity|]. simpl. now rewrite app_nil_r.
  - pose proof (called_instance rt E_process w f [ocaml_plugin s] plugin p s H) as H1.
    pose proof (resolved_called rt rt E_process w f [ocaml_plugin s] f Hr) as Hr1.
    destruct (IH _ H1 Hr1) as (w' & Hrun & Ht & Hh).
    exists w'. split.
    { simpl. unfold bind at 1 2.
      rewrite (plugin_process_eq rt mm w plugin p s a H), Hr. exact Hrun. }
    split.
    { rewrite Ht, called_trace, <- app_assoc. reflexivity. }
    rewrite Hh. unfold called. simpl. apply looked_up_heap.
Qed.

(** X11: [n] process calls in a row on a live instance reach the runtime
    exactly [n] times when [daw_bridge_process] is resolved, always with
    the same closure and the same handle, and leave the C heap untouched;
    when it stays unresolved they change nothing at all. *)
Theorem X11_process_forwards_one_tick_per_call
    (rt : runtime) (mm : memory_model) (w : world) (plugin : ptr)
    (p : clap_plugin) (s : daw_bridge_state) (a : ptr) (n : nat) :
  instance_at w plugin p s ->
  exists w' : world,
    run rt mm plugin (repeat (CProcess a) n) w = Ok tt w' /\
    heap w' = heap w /\
    match resolved rt E_process w with
    | Some f => trace w' = trace w ++ repeat (EvCallback E_process f [ocaml_plugin s]) n
    | None => w' = w
    end.
Proof.
  intros H. destruct (resolved rt E_process w) as [f|] eqn:Hr.
  - destruct (run_process_repeat rt mm plugin p s f a n w H Hr) as (w' & Hrun & Ht & Hh).
    now exists w'.
  - exists w. split; [|now split].
    induction n as [|n IH]; [reflexivity|].
    simpl. unfold bind at 1 2.
    now rewrite (plugin_process_eq rt mm w plugin p s a H), Hr.
Qed.

Lemma X11_process_forwards_one_tick_per_call_witness :
  instance_at initialised_world 1%nat (new_plugin 2%nat) initialised_state /\
  exists w' : world,
    run full_runtime Checked 1%nat (repeat (CProcess 0%nat) 3) initialised_world
      = Ok tt w' /\
    heap w' = heap initialised_world /\
    match resolved full_runtime E_process initialised_world with
    | Some f =>
        trace w' = trace initialised_world ++
                   repeat (EvCallback E_process f [ocaml_plugin initialised_state]) 3
    | None => w' = initialised_world
    end.
Proof.
  split; [split; reflexivity|].
  apply (X11_process_forwards_one_tick_per_call full_runtime Checked
           initialised_world 1%nat (new_plugin 2%nat) initialised_state 0%nat 3%nat).
  split; reflexivity.
Defined.



(** X13: the factory's three functions agree.  An index has a descriptor
    exactly when it is below the plugin count, and [create_plugin]
    returns an instance exactly for the identities of the descriptors
    that can be enumerated that way. *)
Theorem X13_factory_enumeration_matches_create
    (mm : memory_model) (w : world) (host_ref : Z) (plugin_id : string) (index : Z) :
  (factory_get_plugin_descriptor index <> None
   <-> 0 <= index < factory_get_plugin_count) /\
  exists (plugin : ptr) (w' : world),
    factory_create_plugin mm host_ref plugin_id w = Ok plugin w' /\
    (plugin <> NULL <->
     exists (i : Z) (d : clap_plugin_descriptor),
       0 <= i < factory_get_plugin_count /\
       factory_get_plugin_descriptor i = Some d /\
       id d = plugin_id).
Proof.
  split.
  { unfold factory_get_plugin_descriptor, factory_get_plugin_count.
    destruct (Z.eqb_spec index 0) as [->|E]; split; intros H; try lia; try discriminate.
    now elim H. }
  rewrite factory_create_plugin_eq. case_decide as E.
  - eexists _, _. split; [reflexivity|]. split; [|discriminate].
    intros _. exists 0, s_descriptor.
    split; [unfold factory_get_plugin_count; lia|].
    split; [reflexivity|now symmetry].
  - exists NULL, w. split; [reflexivity|]. split; [intros H; now elim H|].
    intros (i & d & Hi & Hd & Hid). exfalso. apply E.
    unfold factory_get_plugin_descriptor in Hd.
    destruct (Z.eqb i 0); [|discriminate]. injection Hd as <-. now symmetry.
Qed.

(** A lookup for one entry point never changes what another resolves to. *)
Lemma resolved_looked_up rt e e' w :
  resolved rt e (looked_up rt e' w) = resolved rt e w.
Proof.
  destruct e, e';
    first [apply looked_up_resolved | apply resolved_looked_up_other; discriminate].
Qed.

(** ** Process under any runtime *)

Lemma caml_callback_eq (rt : ocaml_runtime) e f args w :
  caml_callback rt e f args w =
    match callback_exn rt f args with
    | Returned v =>
        Ok v {| heap := heap w; cache := cache w;
                trace := trace w ++ [EvCallback e f args] |}
    | Raised exn => Fault (Uncaught exn)
    end.
Proof.
  unfold caml_callback, emit, bind.
  now destruct (callback_exn rt f args).
Qed.

Lemma plugin_process_outcome (rt : ocaml_runtime) mm w plugin p s process_arg :
  instance_at w plugin p s ->
  plugin_process rt mm plugin process_arg w =
    match resolved rt E_process w with
    | None => Ok 0 w
    | Some slot =>
        let f := slot_content rt slot in
        match callback_exn rt f [ocaml_plugin s] with
        | Returned _ => Ok 0 (called rt E_process w f [ocaml_plugin s])
        | Raised exn => Fault (Uncaught exn)
        end
    end.
Proof.
  intros [Hp Hs]. unfold plugin_process.
  step_with (load_plugin_live mm w plugin p Hp).
  step_with (named_value_cached_eq rt E_process w).
  destruct (resolved rt E_process w) as [slot|] eqn:Hr.
  - rewrite <- (looked_up_heap rt E_process) in Hs.
    unfold bind at 1.
    step_with (load_state_live mm _ _ _ Hs).
    unfold bind at 1. rewrite caml_callback_eq. cbv zeta.
    now destruct (callback_exn rt (slot_content rt slot) [ocaml_plugin s]).
  - now rewrite (looked_up_unresolved _ _ _ Hr).
Qed.

Lemma resolved_same_but_results rt rt' e w :
  same_but_results rt rt' -> resolved rt' e w = resolved rt e w.
Proof. intros (Hn & _ & _). unfold resolved. now rewrite Hn. Qed.

Lemma looked_up_same_but_results rt rt' e w :
  same_but_results rt rt' -> looked_up rt' e w = looked_up rt e w.
Proof. intros (Hn & _ & _). unfold looked_up. now rewrite Hn. Qed.

(** C6, as stated, fails: create, init, then process under a runtime whose
    [daw_bridge_process] closure raises.  The shim calls it with
    [caml_callback], which does not catch, so the exception is not
    swallowed and no status, 0 or other, is returned to the host. *)
Lemma C6_process_raising_counterexample :
  plugin_init raising_runtime Checked 1%nat created_world = Ok true initialised_world /\
  instance_at initialised_world 1%nat (new_plugin 2%nat) initialised_state /\
  plugin_process raising_runtime Checked 1%nat 0%nat initialised_world
    = Fault (Uncaught (Block 9)) /\
  ~ process_always_continues.
Proof.
  split; [reflexivity|]. split; [split; reflexivity|]. split; [reflexivity|].
  intros Hc.
  destruct (Hc raising_runtime Checked initialised_world 1%nat (new_plugin 2%nat)
              initialised_state 0%nat initialised_world_instance) as (w' & Hw).
  discriminate Hw.
Qed.

(** C6, amended: on a live instance, under any runtime and for any block
    pointer, [plugin_process] makes no call when [daw_bridge_process] is
    unresolved and otherwise one call, to the closure its slot holds, with
    the handle.  When that call returns, whatever value it returns is
    dropped and 0 goes back to the host with the heap untouched; when the
    closure raises, the exception escapes and nothing is returned.  So
    every status the host gets is 0, and neither the block pointer nor the
    values the runtime returns influence the outcome. *)
Theorem C6_process_continues_unless_callback_raises
    (rt : ocaml_runtime) (mm : memory_model) (w : world) (plugin : ptr)
    (p : clap_plugin) (s : daw_bridge_state) (process_arg : ptr) :
  instance_at w plugin p s ->
  plugin_process rt mm plugin process_arg w =
    match resolved rt E_process w with
    | None => Ok 0 w
    | Some slot =>
        let f := slot_content rt slot in
        match callback_exn rt f [ocaml_plugin s] with
        | Returned _ => Ok 0 (called rt E_process w f [ocaml_plugin s])
        | Raised exn => Fault (Uncaught exn)
        end
    end /\
  (forall (r : Z) (w' : world),
     plugin_process rt mm plugin process_arg w = Ok r w' ->
     r = 0 /\
     heap w' = heap w /\
     exists evs,
       trace w' = trace w ++ evs /\
       (length evs <= 1)%nat /\
       forall ev, In ev evs ->
         exists f, ev = EvCallback E_process f [ocaml_plugin s]) /\
  (forall process_arg' : ptr,
     plugin_process rt mm plugin process_arg' w =
     plugin_process rt mm plugin process_arg w) /\
  (forall rt' : ocaml_runtime,
     same_but_results rt rt' ->
     plugin_process rt' mm plugin process_arg w =
     plugin_process rt mm plugin process_arg w).
Proof.
  intros H.
  pose proof (fun r a => plugin_process_outcome r mm w plugin p s a H) as E.
  split; [apply E|]. split; [|split].
  - intros r w'. rewrite E.
    destruct (resolved rt E_process w) as [slot|].
    + cbv zeta.
      destruct (callback_exn rt (slot_content rt slot) [ocaml_plugin s]);
        [|discriminate].
      intros [= <- <-]. split; [reflexivity|]. split; [apply looked_up_heap|].
      eexists. split; [apply called_trace|]. split; [simpl; lia|].
      intros ev [<-|[]]. now eexists.
    + intros [= <- <-]. split; [reflexivity|]. split; [reflexivity|].
      exists []. rewrite app_nil_r. split; [reflexivity|]. split; [simpl; lia|].
      intros ev [].
  - intros a. now rewrite !E.
  - intros rt' Hs. rewrite !E.
    rewrite (resolved_same_but_results rt rt') by exact Hs.
    destruct (resolved rt E_process w) as [slot|]; [|reflexivity].
    cbv zeta. unfold called.
    rewrite (looked_up_same_but_results rt rt') by exact Hs.
    destruct Hs as (_ & Hc & Hx). rewrite Hc.
    specialize (Hx (slot_content rt slot) [ocaml_plugin s]).
    destruct (callback_exn rt (slot_content rt slot) [ocaml_plugin s]),
             (callback_exn rt' (slot_content rt slot) [ocaml_plugin s]);
      try contradiction; [reflexivity|now subst].
Qed.

Lemma C6_process_continues_unless_callback_raises_witness :
  instance_at initialised_world 1%nat (new_plugin 2%nat) initialised_state /\
  (plugin_process full_runtime Checked 1%nat 0%nat initialised_world =
     match resolved full_runtime E_process initialised_world with
     | None => Ok 0 initialised_world
     | Some slot =>
         let f := slot_content full_runtime slot in
         match callback_exn full_runtime f [ocaml_plugin initialised_state] with
         | Returned _ =>
             Ok 0 (called full_runtime E_process initialised_world f
                     [ocaml_plugin initialised_state])
         | Raised exn => Fault (Uncaught exn)
         end
     end /\
   (forall (r : Z) (w' : world),
      plugin_process full_runtime Checked 1%nat 0%nat initialised_world = Ok r w' ->
      r = 0 /\
      heap w' = heap initialised_world /\
      exists evs,
        trace w' = trace initialised_world ++ evs /\
        (length evs <= 1)%nat /\
        forall ev, In ev evs ->
          exists f, ev = EvCallback E_process f [ocaml_plugin initialised_state]) /\
   (forall process_arg' : ptr,
      plugin_process full_runtime Checked 1%nat process_arg' initialised_world =
      plugin_process full_runtime Checked 1%nat 0%nat initialised_world) /\
   (forall rt' : ocaml_runtime,
      same_but_results full_runtime rt' ->
      plugin_process rt' Checked 1%nat 0%nat initialised_world =
      plugin_process full_runtime Checked 1%nat 0%nat initialised_world)).
Proof.
  split; [split; reflexivity|].
  apply (C6_process_continues_unless_callback_raises full_runtime Checked
           initialised_world 1%nat (new_plugin 2%nat) initialised_state 0%nat).
  split; reflexivity.
Defined.

(** ** What the static caches *)

(** X6: what a bridging function caches is the lookup, not the closure.
    Once [plugin_process] has resolved [daw_bridge_process] to a slot, a
    later [plugin_process] does not look the name up again, whatever the
    runtime would answer by then, but it reads the closure out of the
    cached slot at the time of the call: if the OCaml side has registered
    another closure under the name in between, that one is called. *)
Theorem X6_lookup_is_cached_closure_is_not
    (rt rt' : ocaml_runtime) (mm : memory_model) (w : world) (plugin : ptr)
    (p : clap_plugin) (s : daw_bridge_state) (slot r1 r2 : value) (a1 a2 : ptr) :
  instance_at w plugin p s ->
  resolved rt E_process w = Some slot ->
  callback_exn rt (slot_content rt slot) [ocaml_plugin s] = Returned r1 ->
  callback_exn rt' (slot_content rt' slot) [ocaml_plugin s] = Returned r2 ->
  exists w1 w2 : world,
    plugin_process rt mm plugin a1 w = Ok 0 w1 /\
    statics_get E_process (cache w1) = Some slot /\
    plugin_process rt' mm plugin a2 w1 = Ok 0 w2 /\
    cache w2 = cache w1 /\
    trace w2 = trace w ++
      [EvCallback E_process (slot_content rt slot) [ocaml_plugin s];
       EvCallback E_process (slot_content rt' slot) [ocaml_plugin s]].
Proof.
  intros H Hr Hc1 Hc2.
  set (w1 := called rt E_process w (slot_content rt slot) [ocaml_plugin s]).
  assert (Hs1 : statics_get E_process (cache w1) = Some slot).
  { change (statics_get E_process (cache (looked_up rt E_process w)) = Some slot).
    now rewrite cache_looked_up. }
  assert (Hr1 : resolved rt' E_process w1 = Some slot).
  { unfold resolved. now rewrite Hs1. }
  assert (Hl1 : looked_up rt' E_process w1 = w1).
  { unfold looked_up. now rewrite Hs1. }
  pose proof (called_instance rt E_process w (slot_content rt slot)
                [ocaml_plugin s] plugin p s H) as H1.
  exists w1, (called rt' E_process w1 (slot_content rt' slot) [ocaml_plugin s]).
  split.
  { rewrite (plugin_process_outcome rt mm w plugin p s a1 H), Hr. cbv zeta.
    now rewrite Hc1. }
  split; [exact Hs1|].
  split.
  { rewrite (plugin_process_outcome rt' mm w1 plugin p s a2 H1), Hr1. cbv zeta.
    now rewrite Hc2. }
  split.
  { unfold called at 1. simpl. now rewrite Hl1. }
  rewrite called_trace. unfold w1. now rewrite called_trace, <- app_assoc.
Qed.

Lemma X6_lookup_is_cached_closure_is_not_witness :
  instance_at initialised_world 1%nat (new_plugin 2%nat) initialised_state /\
  resolved full_runtime E_process initialised_world = Some (Block 5) /\
  callback_exn full_runtime (slot_content full_runtime (Block 5))
    [ocaml_plugin initialised_state] = Returned Val_unit /\
  callback_exn reregistered_runtime (slot_content reregistered_runtime (Block 5))
    [ocaml_plugin initialised_state] = Returned Val_unit /\
  exists w1 w2 : world,
    plugin_process full_runtime Checked 1%nat 0%nat initialised_world = Ok 0 w1 /\
    statics_get E_process (cache w1) = Some (Block 5) /\
    plugin_process reregistered_runtime Checked 1%nat 0%nat w1 = Ok 0 w2 /\
    cache w2 = cache w1 /\
    trace w2 = trace initialised_world ++
      [EvCallback E_process (slot_content full_runtime (Block 5))
         [ocaml_plugin initialised_state];
       EvCallback E_process (slot_content reregistered_runtime (Block 5))
         [ocaml_plugin initialised_state]].
Proof.
  split; [split; reflexivity|]. split; [reflexivity|].
  split; [reflexivity|]. split; [reflexivity|].
  apply (X6_lookup_is_cached_closure_is_not full_runtime reregistered_runtime Checked
           initialised_world 1%nat (new_plugin 2%nat) initialised_state
           (Block 5) Val_unit Val_unit 0%nat 0%nat).
  - split; reflexivity.
  - reflexivity.
  - reflexivity.
  - reflexivity.
Defined.

(** After re-registration the closure called is the new one, block 55. *)
Example reregistered_closure_is_called :
  slot_content full_runtime (Block 5) = Block 5 /\
  slot_content reregistered_runtime (Block 5) = Block 55 /\
  exists w1 w2,
    plugin_process full_runtime Checked 1%nat 0%nat initialised_world = Ok 0 w1 /\
    plugin_process reregistered_runtime Checked 1%nat 0%nat w1 = Ok 0 w2 /\
    trace w2 = trace initialised_world ++
      [EvCallback E_process (Block 5) [Block 100];
       EvCallback E_process (Block 55) [Block 100]].
Proof.
  split; [reflexivity|]. split; [reflexivity|].
  do 2 eexists. split; [cbv; reflexivity|]. split; [cbv; reflexivity|]. reflexivity.
Qed.

(** ** The root set *)

Lemma is_root_after_app slot t1 t2 :
  is_root_after slot (t1 ++ t2) = fold_left (root_step slot) t2 (is_root_after slot t1).
Proof. unfold is_root_after. apply fold_left_app. Qed.

Lemma step_roots (rt : runtime) mm w plugin p s c :
  instance_at w plugin p s ->
  c <> CDestroy ->
  exists w' s',
    step rt mm plugin c w = Ok tt w' /\
    instance_at w' plugin p s' /\
    (forall e, resolved rt e w' = resolved rt e w) /\
    is_root_after (plugin_data p) (trace w') =
      is_root_after (plugin_data p) (trace w)
      || (is_init c && bool_decide (resolved rt E_init w <> None)).
Proof.
  intros H Hc.
  assert (Hcalled : forall e f args,
            instance_at (called rt e w f args) plugin p s /\
            (forall e', resolved rt e' (called rt e w f args) = resolved rt e' w) /\
            is_root_after (plugin_data p) (trace (called rt e w f args)) =
              is_root_after (plugin_data p) (trace w) || false).
  { intros e f args. split; [now apply called_instance|]. split.
    - intros e'. rewrite <- (resolved_looked_up rt e' e w). now apply resolved_cache.
    - rewrite called_trace, is_root_after_app. simpl. now rewrite orb_false_r. }
  assert (Hsame : instance_at w plugin p s /\
                  (forall e, resolved rt e w = resolved rt e w) /\
                  is_root_after (plugin_data p) (trace w) =
                    is_root_after (plugin_data p) (trace w) || false).
  { split; [exact H|]. split; [reflexivity|now rewrite orb_false_r]. }
  destruct c; try (now elim Hc); unfold step; simpl is_init; cbv iota;
    rewrite ?andb_false_l.
  - destruct (resolved rt E_init w) as [f|] eqn:Hr.
    + rewrite (bind_Ok _ _ _ _ _ (plugin_init_resolved rt mm w plugin p s f H Hr)).
      eexists _, _. split; [reflexivity|].
      split; [now apply initialised_instance|].
      split.
      { intros e. rewrite <- (resolved_looked_up rt e E_init w).
        now apply resolved_cache. }
      rewrite initialised_trace, is_root_after_app. simpl.
      rewrite Nat.eqb_refl. now rewrite orb_true_r.
    + rewrite (bind_Ok _ _ _ _ _ (plugin_init_unresolved rt mm w plugin p s H Hr)).
      exists w, s. split; [reflexivity|]. split; [exact H|]. split; [reflexivity|].
      rewrite bool_decide_eq_false_2 by (intros E; now apply E).
      now rewrite orb_false_r.
  - unfold bind. rewrite (plugin_activate_eq rt mm w plugin p s _ _ _ H).
    destruct (resolved rt E_activate w) as [f|]; eexists _, s;
      (split; [reflexivity|]); [apply Hcalled | exact Hsame].
  - rewrite (plugin_deactivate_eq rt mm w plugin p s H).
    destruct (resolved rt E_deactivate w) as [f|]; eexists _, s;
      (split; [reflexivity|]); [apply Hcalled | exact Hsame].
  - exists w, s. split; [reflexivity|exact Hsame].
  - exists w, s. split; [reflexivity|exact Hsame].
  - exists w, s. split; [reflexivity|exact Hsame].
  - unfold bind. rewrite (plugin_process_eq rt mm w plugin p s _ H).
    destruct (resolved rt E_process w) as [f|]; eexists _, s;
      (split; [reflexivity|]); [apply Hcalled | exact Hsame].
  - exists w, s. split; [reflexivity|exact Hsame].
Qed.

Lemma inits_cons c cs :
  inits (c :: cs) = ((if is_init c then 1 else 0) + inits cs)%nat.
Proof. unfold inits. simpl. now destruct (is_init c). Qed.

Lemma run_roots (rt : runtime) mm plugin p cs :
  forall w s,
    instance_at w plugin p s ->
    no_destroy cs ->
    exists w' s',
      run rt mm plugin cs w = Ok tt w' /\
      instance_at w' plugin p s' /\
      (forall e, resolved rt e w' = resolved rt e w) /\
      is_root_after (plugin_data p) (trace w') =
        is_root_after (plugin_data p) (trace w)
        || (Nat.ltb 0 (inits cs) && bool_decide (resolved rt E_init w <> None)).
Proof.
  induction cs as [|c cs IH]; intros w s H Hn.
  - exists w, s. split; [reflexivity|]. split; [exact H|]. split; [reflexivity|].
    change (inits []) with 0%nat. simpl. now rewrite orb_false_r.
  - apply Forall_cons in Hn as [Hc Hn].
    destruct (step_roots rt mm w plugin p s c H Hc) as (w1 & s1 & Hs & H1 & Hr1 & Hp1).
    destruct (IH w1 s1 H1 Hn) as (w2 & s2 & Hrun & H2 & Hr2 & Hp2).
    exists w2, s2. split; [simpl; now rewrite (bind_Ok _ _ _ _ _ Hs)|].
    split; [exact H2|]. split; [intros e; now rewrite Hr2, Hr1|].
    rewrite Hp2, Hp1, Hr1, inits_cons.
    destruct (is_root_after (plugin_data p) (trace w)),
             (bool_decide (resolved rt E_init w <> None)),
             (is_init c), (inits cs); reflexivity.
Qed.

(** X15: the runtime's root set follows init and destroy, not the number
    of calls.  After any sequence of calls other than destroy on a live
    instance, the state's handle slot is a global root exactly if it was
    one before or the sequence holds an init call and [daw_bridge_init] is
    resolved; several inits leave it a root once.  The destroy that
    follows leaves it a root exactly if it was one and destroy did not
    make its call to the runtime ([daw_bridge_destroy] unresolved, or the
    handle [Val_unit]); when it does, the slot is no root any more however
    many inits there were. *)
Theorem X15_root_set_follows_init_and_destroy
    (rt : runtime) (mm : memory_model) (w : world) (plugin : ptr)
    (p : clap_plugin) (s : daw_bridge_state) (cs : list host_call) :
  instance_at w plugin p s ->
  no_destroy cs ->
  exists (w1 : world) (s1 : daw_bridge_state) (w2 : world),
    run rt mm plugin cs w = Ok tt w1 /\
    instance_at w1 plugin p s1 /\
    is_root_after (plugin_data p) (trace w1) =
      is_root_after (plugin_data p) (trace w)
      || (Nat.ltb 0 (inits cs) && bool_decide (resolved rt E_init w <> None)) /\
    plugin_destroy rt mm plugin w1 = Ok tt w2 /\
    is_root_after (plugin_data p) (trace w2) =
      is_root_after (plugin_data p) (trace w1)
      && (bool_decide (resolved rt E_destroy w = None)
          || is_Val_unit (ocaml_plugin s1)).
Proof.
  intros H Hn.
  destruct (run_roots rt mm plugin p cs w s H Hn) as (w1 & s1 & Hrun & H1 & Hr & Hp).
  exists w1, s1, (destroyed rt w1 plugin p s1).
  split; [exact Hrun|]. split; [exact H1|]. split; [exact Hp|].
  split; [now apply plugin_destroy_eq|].
  rewrite destroyed_trace, !is_root_after_app. unfold release_events.
  rewrite Hr.
  destruct (resolved rt E_destroy w) as [g|].
  - rewrite bool_decide_eq_false_2 by discriminate.
    destruct (is_Val_unit (ocaml_plugin s1)); simpl.
    + now rewrite andb_true_r.
    + rewrite Nat.eqb_refl. now rewrite andb_false_r.
  - rewrite bool_decide_eq_true_2 by reflexivity. simpl. now rewrite andb_true_r.
Qed.

Lemma X15_root_set_follows_init_and_destroy_witness :
  instance_at created_world 1%nat (new_plugin 2%nat) created_state /\
  no_destroy [CInit; CProcess 0%nat; CInit; CDeactivate] /\
  exists (w1 : world) (s1 : daw_bridge_state) (w2 : world),
    run full_runtime Checked 1%nat [CInit; CProcess 0%nat; CInit; CDeactivate]
      created_world = Ok tt w1 /\
    instance_at w1 1%nat (new_plugin 2%nat) s1 /\
    is_root_after 2%nat (trace w1) =
      is_root_after 2%nat (trace created_world)
      || (Nat.ltb 0 (inits [CInit; CProcess 0%nat; CInit; CDeactivate])
          && bool_decide (resolved full_runtime E_init created_world <> None)) /\
    plugin_destroy full_runtime Checked 1%nat w1 = Ok tt w2 /\
    is_root_after 2%nat (trace w2) =
      is_root_after 2%nat (trace w1)
      && (bool_decide (resolved full_runtime E_destroy created_world = None)
          || is_Val_unit (ocaml_plugin s1)).
Proof.
  split; [split; reflexivity|].
  split; [repeat constructor; discriminate|].
  apply (X15_root_set_follows_init_and_destroy full_runtime Checked created_world
           1%nat (new_plugin 2%nat) created_state
           [CInit; CProcess 0%nat; CInit; CDeactivate]).
  - split; reflexivity.
  - repeat constructor; discriminate.
Defined.

(** Two inits and a destroy under [full_runtime]: a root after the inits,
    none after the destroy. *)
Example two_inits_one_root :
  exists w1 w2,
    run full_runtime Checked 1%nat [CInit; CInit] created_world = Ok tt w1 /\
    is_root_after 2%nat (trace w1) = true /\
    plugin_destroy full_runtime Checked 1%nat w1 = Ok tt w2 /\
    is_root_after 2%nat (trace w2) = false.
Proof.
  do 2 eexists. split; [cbv; reflexivity|]. split; [reflexivity|].
  split; [cbv; reflexivity|]. reflexivity.
Qed.
